(** * The viper bundle of a GoZix application

    A shallow embedding of the four revisions of the bundle that this
    repository holds ([src/viper.go], [src/unnamed/part_000] and the two
    files of [src/unnamed/part_001]), and the properties of option
    application and of deferred resolution proved on it.

    The bundle is glue: every call it makes lands in a library that is not
    part of the repository (spf13/viper, spf13/pflag, the DI container, the
    Go standard library).  Those collaborators are modelled in the first
    half of the file, each one under a comment that says where the model
    comes from; the second half is the repository's own code. *)

From Stdlib Require Import String Ascii List Bool Arith Lia.
Import ListNotations.
Open Scope string_scope.
Open Scope list_scope.

(* ================================================================== *)
(** * Go values the bundle handles *)

(** ** Errors

    Go's [error] values as the bundle sees them: sentinels built with
    [errors.New], wrappers built with [fmt.Errorf("...%w", err)], and the
    errors the libraries hand back.  [Errorf text err] stands for a
    [fmt.Errorf] call whose format ends in [%w]: [text] is the rendered
    format up to the verb. *)
Inductive error : Type :=
| errors_New (text : string)
| Errorf (text : string) (err : error)
| ConfigFileNotFoundError (name : string) (locations : list string)
| ConfigReadError (file : string)
| ConfigParseError
| FlagError (text : string)
| RegistryError (name : string)
| ContainerError (name : string).

Definition error_eq_dec (x y : error) : {x = y} + {x <> y}.
Proof.
  decide equality; try apply string_dec.
  apply (list_eq_dec string_dec).
Defined.

Definition error_eqb (x y : error) : bool :=
  if error_eq_dec x y then true else false.

(** [err.Error()]. *)
Fixpoint Error (e : error) : string :=
  match e with
  | errors_New text => text
  | Errorf text err => text ++ Error err
  | ConfigFileNotFoundError name _ =>
      "Config File '" ++ name ++ "' Not Found"
  | ConfigReadError file => "open " ++ file ++ ": no such file or directory"
  | ConfigParseError => "While parsing config"
  | FlagError text => text
  | RegistryError name => "registry: " ++ name
  | ContainerError name => "container: " ++ name
  end.

(** [errors.Unwrap]. *)
Definition Unwrap (e : error) : option error :=
  match e with
  | Errorf _ err => Some err
  | _ => None
  end.

(** [errors.Is(err, target)] on a possibly nil [err]: walks the chain of
    wrapped errors. *)
Fixpoint Is_chain (e target : error) : bool :=
  error_eqb e target ||
  match e with
  | Errorf _ err => Is_chain err target
  | _ => false
  end.

Definition errors_Is (err : option error) (target : error) : bool :=
  match err with
  | None => false
  | Some e => Is_chain e target
  end.

(** ** The [strings] package

    Modelled from the spec: the Go standard library is not part of the
    repository.  The spec's key replacer is "a character-substitution
    rule applied when mapping configuration keys to environment variable
    names"; the replacer below substitutes the listed texts from left to
    right, and upper-casing acts on ASCII letters. *)
Module strings.

Definition is_lower (c : ascii) : bool :=
  ((97 <=? nat_of_ascii c)%nat && (nat_of_ascii c <=? 122)%nat)%bool.

Definition upper_ascii (c : ascii) : ascii :=
  if is_lower c then ascii_of_nat (nat_of_ascii c - 32) else c.

(** Modelled from the spec: [strings.ToUpper] of the Go library, on the
    ASCII range. *)
Fixpoint ToUpper (s : string) : string :=
  match s with
  | EmptyString => EmptyString
  | String c s' => String (upper_ascii c) (ToUpper s')
  end.

(** A [*strings.Replacer] is kept as the argument list it was built
    from: the pairs (old, new) in argument order. *)
Definition Replacer : Type := list (string * string).

(** [strings.NewReplacer(old1, new1, old2, new2, ...)]. *)
Definition NewReplacer (oldnew : list (string * string)) : Replacer := oldnew.

(** The first pair, in argument order, whose non-empty [old] starts the
    text. *)
Fixpoint first_match (r : Replacer) (s : string) : option (string * string) :=
  match r with
  | [] => None
  | (old, new) :: r' =>
      if negb (String.eqb old EmptyString) && String.prefix old s
      then Some (old, new)
      else first_match r' s
  end.

(** Modelled from the spec: [r.Replace(s)] of the Go library, the
    "character-substitution rule"; replacements are made in the order
    they appear in the text, without overlapping matches.  [skip] counts
    the characters of a matched [old] still to be dropped. *)
Fixpoint replace_from (r : Replacer) (skip : nat) (s : string) : string :=
  match s with
  | EmptyString => EmptyString
  | String c s' =>
      match skip with
      | S k => replace_from r k s'
      | O =>
          match first_match r s with
          | Some (old, new) => new ++ replace_from r (String.length old - 1) s'
          | None => String c (replace_from r 0 s')
          end
      end
  end.

Definition Replace (r : Replacer) (s : string) : string := replace_from r 0 s.

End strings.

(** ** The [pflag] package

    Modelled from the spec: spf13/pflag is not part of the repository.  A
    flag set is "a small, independently-constructed set of command-line
    flags" whose string flag has a default and a current value.  Parsing
    an argument list is the library's business and stays a parameter of
    the code that calls it. *)
Module pflag.

(** Modelled from the spec: the value of a flag of the absent library; a
    string flag holds its current text, a flag of another type only its
    type name. *)
Inductive Value : Type :=
| stringValue (s : string)
| otherValue (type : string).

Record Flag : Type := mkFlag {
  Name : string;
  Shorthand : string;
  Usage : string;
  Val : Value;
  DefValue : string
}.

Inductive ErrorHandling : Type := ContinueOnError | ExitOnError | PanicOnError.

Record FlagSet : Type := mkFlagSet {
  name : string;
  errorHandling : ErrorHandling;
  formal : list Flag
}.

(** Modelled from the spec: [pflag.ErrHelp] of the absent library, the
    error by which parsing "reports a help request". *)
Definition ErrHelp : error := errors_New "pflag: help requested".

(** Modelled from the spec: [pflag.NewFlagSet(name, errorHandling)] of
    the absent library, an empty flag set. *)
Definition NewFlagSet (n : string) (h : ErrorHandling) : FlagSet :=
  {| name := n; errorHandling := h; formal := [] |}.

(** Modelled from the spec: [f.StringP(name, shorthand, value, usage)] of
    the absent library; defines a string flag whose current value is its
    default. *)
Definition StringP (f : FlagSet) (n shorthand value usage : string) : FlagSet :=
  {| name := name f;
     errorHandling := errorHandling f;
     formal := formal f ++
               [ {| Name := n; Shorthand := shorthand; Usage := usage;
                    Val := stringValue value; DefValue := value |} ] |}.

(** Modelled from the spec: [f.Lookup(name)] of the absent library. *)
Definition Lookup (f : FlagSet) (n : string) : option Flag :=
  find (fun fl => String.eqb (Name fl) n) (formal f).

(** Modelled from the spec: [f.GetString(name)] of the absent library,
    "read the flag's current value"; an error for a flag that is not
    defined or not a string. *)
Definition GetString (f : FlagSet) (n : string) : error + string :=
  match Lookup f n with
  | None => inl (FlagError ("flag accessed but not defined: " ++ n))
  | Some fl =>
      match Val fl with
      | stringValue s => inr s
      | otherValue t =>
          inl (FlagError ("trying to get string value of flag of type " ++ t))
      end
  end.

End pflag.

(** [*cobra.Command], as far as the bundle looks into it: [cmd.Flags()]. *)
Record Command : Type := mkCommand { Flags : pflag.FlagSet }.

(** An [interface{}] found under a key of a context or a registry. *)
Inductive any : Type :=
| anyString (s : string)
| anyCommand (cmd : Command)
| anyOther (type : string).

(** [context.Context]: the chain of [context.WithValue] bindings, the
    innermost first. *)
Definition Context : Type := list (string * any).

(** [ctx.Value(key)]; [None] is Go's nil. *)
Fixpoint Value (ctx : Context) (key : string) : option any :=
  match ctx with
  | [] => None
  | (k, v) :: ctx' => if String.eqb k key then Some v else Value ctx' key
  end.

(** The type assertion [x.(string)] with its [ok] result. *)
Definition assert_string (x : option any) : option string :=
  match x with
  | Some (anyString s) => Some s
  | _ => None
  end.

(** The type assertion [x.( *cobra.Command)]. *)
Definition assert_Command (x : option any) : option Command :=
  match x with
  | Some (anyCommand c) => Some c
  | _ => None
  end.

(** The registry of the first revisions ([glue.Registry]) and the
    container entries they read: named [interface{}] values.  [Fill]
    fails when the name is unknown or the value has another type. *)
Definition Registry : Type := list (string * any).

Definition Fill_string (r : Registry) (key : string) : error + string :=
  match assert_string (Value r key) with
  | Some s => inr s
  | None => inl (RegistryError key)
  end.

Definition Fill_Command (r : Registry) (key : string) : error + Command :=
  match assert_Command (Value r key) with
  | Some c => inr c
  | None => inl (RegistryError key)
  end.

(* ================================================================== *)
(** * The configuration library *)

(** ** Files and environment *)

(** The key/value content of a configuration file, or of the process
    environment. *)
Definition Settings : Type := list (string * string).

Fixpoint lookup (m : Settings) (key : string) : option string :=
  match m with
  | [] => None
  | (k, v) :: m' => if String.eqb k key then Some v else lookup m' key
  end.

(** A file on disk, seen through the decoder: text in one format holding
    some settings, or bytes that no format decodes. *)
Inductive File : Type :=
| Encoded (format : string) (settings : Settings)
| Garbled.

(** The file system: the files that exist, by full name. *)
Definition FileSystem : Type := list (string * File).

Fixpoint Open (fs : FileSystem) (file : string) : option File :=
  match fs with
  | [] => None
  | (f, x) :: fs' => if String.eqb f file then Some x else Open fs' file
  end.

(** Modelled from the spec: a file "on that path", the directory and the
    file name joined by the separator. *)
Definition Join (dir base : string) : string := dir ++ "/" ++ base.

(** ** The configuration object

    Modelled from the spec: spf13/viper is not part of the repository.
    The spec describes the configuration object as a "mutable key-value
    store merging defaults, environment variables (optionally prefixed and
    key-translated), and file contents", and its operations as: enable
    automatic environment reads, set environment prefix, set environment
    key replacer, set explicit config file, set config name, set config
    path ("additive -- may be called multiple times to add search paths"),
    set config type, with "no validation performed"; an explicit config
    file overrides "name/path/type-based discovery", discovery looks for
    the file named by name and type ("config.json") on the registered
    search paths, and with automatic env "any configuration key lookup
    also checks a correspondingly-named environment variable". *)
Module spf13.

(** Modelled from the spec: the configuration object of the absent
    library, one field per setting that an option writes and the settings
    loaded from the file. *)
Record Viper : Type := mkViper {
  automaticEnvApplied : bool;
  envPrefix : string;
  envKeyReplacer : option strings.Replacer;
  configFile : string;
  configName : string;
  configPaths : list string;
  configType : string;
  config : Settings
}.

(** Modelled from the spec: [viper.New()] of the absent library, the
    "freshly constructed configuration object": nothing set, nothing
    loaded. *)
Definition New : Viper :=
  {| automaticEnvApplied := false;
     envPrefix := EmptyString;
     envKeyReplacer := None;
     configFile := EmptyString;
     configName := EmptyString;
     configPaths := [];
     configType := EmptyString;
     config := [] |}.

(** Modelled from the spec: [v.AutomaticEnv()] of the absent library,
    "enable automatic environment reads". *)
Definition AutomaticEnv (v : Viper) : Viper :=
  mkViper true (envPrefix v) (envKeyReplacer v) (configFile v)
          (configName v) (configPaths v) (configType v) (config v).

(** Modelled from the spec: [v.SetEnvPrefix(value)] of the absent library,
    "set environment prefix", without validation. *)
Definition SetEnvPrefix (v : Viper) (value : string) : Viper :=
  mkViper (automaticEnvApplied v) value (envKeyReplacer v) (configFile v)
          (configName v) (configPaths v) (configType v) (config v).

(** Modelled from the spec: [v.SetEnvKeyReplacer(r)] of the absent
    library, "set environment key replacer". *)
Definition SetEnvKeyReplacer (v : Viper) (r : strings.Replacer) : Viper :=
  mkViper (automaticEnvApplied v) (envPrefix v) (Some r) (configFile v)
          (configName v) (configPaths v) (configType v) (config v).

(** Modelled from the spec: [v.SetConfigFile(value)] of the absent
    library, "set explicit config file", without validation. *)
Definition SetConfigFile (v : Viper) (value : string) : Viper :=
  mkViper (automaticEnvApplied v) (envPrefix v) (envKeyReplacer v) value
          (configName v) (configPaths v) (configType v) (config v).

(** Modelled from the spec: [v.SetConfigName(value)] of the absent
    library, "set config name", without validation. *)
Definition SetConfigName (v : Viper) (value : string) : Viper :=
  mkViper (automaticEnvApplied v) (envPrefix v) (envKeyReplacer v) (configFile v)
          value (configPaths v) (configType v) (config v).

(** Modelled from the spec: [v.AddConfigPath(value)] of the absent
    library, "set config path (additive -- may be called multiple times to
    add search paths)": the path joins the paths already registered. *)
Definition AddConfigPath (v : Viper) (value : string) : Viper :=
  mkViper (automaticEnvApplied v) (envPrefix v) (envKeyReplacer v) (configFile v)
          (configName v) (configPaths v ++ [value]) (configType v) (config v).

(** Modelled from the spec: [v.SetConfigType(value)] of the absent
    library, "set config type", without validation. *)
Definition SetConfigType (v : Viper) (value : string) : Viper :=
  mkViper (automaticEnvApplied v) (envPrefix v) (envKeyReplacer v) (configFile v)
          (configName v) (configPaths v) value (config v).

(** Modelled from the spec: what a successful "read config" of the absent
    library does to the object, the file contents are loaded. *)
Definition setConfig (v : Viper) (m : Settings) : Viper :=
  mkViper (automaticEnvApplied v) (envPrefix v) (envKeyReplacer v) (configFile v)
          (configName v) (configPaths v) (configType v) m.

(** Modelled from the spec: the file name that discovery of the absent
    library looks for, made of config name and config type ("config.json"
    for name "config" and type "json"). *)
Definition discoveredName (v : Viper) : string :=
  configName v ++ "." ++ configType v.

(** Modelled from the spec: name/path/type discovery of the absent
    library, "file discovered by name + registered search paths": the
    first search path, in registration order, that holds the file. *)
Fixpoint searchInPaths (fs : FileSystem) (base : string) (paths : list string)
  : option string :=
  match paths with
  | [] => None
  | p :: paths' =>
      match Open fs (Join p base) with
      | Some _ => Some (Join p base)
      | None => searchInPaths fs base paths'
      end
  end.

(** Modelled from the spec: discovery with the object's own name, type
    and search paths. *)
Definition findConfigFile (v : Viper) (fs : FileSystem) : option string :=
  searchInPaths fs (discoveredName v) (configPaths v).

(** Modelled from the spec: the file that "read config" of the absent
    library attempts, the explicit config file when one is set
    ("overriding name/path/type-based discovery"), the discovered one
    otherwise. *)
Definition getConfigFile (v : Viper) (fs : FileSystem) : error + string :=
  if negb (String.eqb (configFile v) EmptyString) then inr (configFile v)
  else match findConfigFile v fs with
       | Some f => inr f
       | None => inl (ConfigFileNotFoundError (configName v) (configPaths v))
       end.

(** Modelled from the spec: decoding of a file by the absent library; a
    file decodes under its own format only, so that a wrong type
    "surfaces only when the file is later parsed". *)
Definition decode (type : string) (f : File) : option Settings :=
  match f with
  | Encoded format settings =>
      if String.eqb format type then Some settings else None
  | Garbled => None
  end.

(** Modelled from the spec: [v.ReadInConfig()] of the absent library,
    the "read config" operation that reads the config file into memory.
    Returns the object after the call and the error, [None] being Go's
    nil; a failed read loads nothing. *)
Definition ReadInConfig (v : Viper) (fs : FileSystem) : Viper * option error :=
  match getConfigFile v fs with
  | inl e => (v, Some e)
  | inr file =>
      match Open fs file with
      | None => (v, Some (ConfigReadError file))
      | Some f =>
          match decode (configType v) f with
          | None => (v, Some ConfigParseError)
          | Some m => (setConfig v m, None)
          end
      end
  end.

(** Modelled from the spec: how the absent library names the environment
    variable of a key, the prefix and "_" put before the key, upper case,
    the key replacer applied ("db.host" becomes "ENV_DB_HOST"). *)
Definition envVarName (v : Viper) (key : string) : string :=
  let merged :=
    if String.eqb (envPrefix v) EmptyString then strings.ToUpper key
    else strings.ToUpper (envPrefix v ++ "_" ++ key) in
  match envKeyReplacer v with
  | Some r => strings.Replace r merged
  | None => merged
  end.

(** Modelled from the spec: [v.Get(key)] of the absent library against
    the process environment [env]; with automatic env "any configuration
    key lookup also checks a correspondingly-named environment variable",
    the environment taking precedence over the loaded file. *)
Definition Get (v : Viper) (env : Settings) (key : string) : option string :=
  if automaticEnvApplied v then
    match lookup env (envVarName v key) with
    | Some x => Some x
    | None => lookup (config v) key
    end
  else lookup (config v) key.

End spf13.

(** The DI container of the first three revisions, as far as their build
    closures look into it: what the definitions [glue.DefRegistry] and
    [glue.DefContext] hold, if anything. *)
Record Container : Type := mkContainer {
  DefRegistry : option Registry;
  DefContext : option Context
}.

Definition Fill_Registry (ctn : Container) : error + Registry :=
  match DefRegistry ctn with
  | Some r => inr r
  | None => inl (ContainerError "registry")
  end.

Definition Fill_Context (ctn : Container) : error + Context :=
  match DefContext ctn with
  | Some c => inr c
  | None => inl (ContainerError "context")
  end.

(* ================================================================== *)
(** * The bundle: what all four revisions share *)

(** [Bundle] holds the configuration object.  The Go field is a pointer
    that every method writes through; here a method takes the bundle and
    returns the bundle it leaves behind. *)
Record Bundle : Type := mkBundle { viper : spf13.Viper }.

(** [optionFunc] is the one implementation of the [Option] interface,
    whose method [apply] is unexported: outside the package an option can
    only come from the seven constructors below. *)
Definition optionFunc : Type := Bundle -> Bundle.
Definition Option : Type := optionFunc.

Definition apply (f : optionFunc) (bundle : Bundle) : Bundle := f bundle.

Definition BundleName : string := "viper".
Definition DefConfigFlag : string := "cli.persistent_flags.config".
Definition tagViperFlagSet : string := "viper.flag_set".

Definition ErrUndefinedAppPath : error := errors_New "app.path is undefined".
Definition ErrUndefinedCliCmd : error := errors_New "cli.cmd is undefined".

Definition AutomaticEnv : Option :=
  fun bundle => mkBundle (spf13.AutomaticEnv (viper bundle)).

Definition EnvPrefix (value : string) : Option :=
  fun bundle => mkBundle (spf13.SetEnvPrefix (viper bundle) value).

Definition EnvKeyReplacer (value : strings.Replacer) : Option :=
  fun bundle => mkBundle (spf13.SetEnvKeyReplacer (viper bundle) value).

Definition ConfigFile (value : string) : Option :=
  fun bundle => mkBundle (spf13.SetConfigFile (viper bundle) value).

Definition ConfigName (value : string) : Option :=
  fun bundle => mkBundle (spf13.SetConfigName (viper bundle) value).

Definition ConfigPath (value : string) : Option :=
  fun bundle => mkBundle (spf13.AddConfigPath (viper bundle) value).

Definition ConfigType (value : string) : Option :=
  fun bundle => mkBundle (spf13.SetConfigType (viper bundle) value).

(** The [for _, option := range options] loop. *)
Definition applyAll (options : list Option) (bundle : Bundle) : Bundle :=
  fold_left (fun bundle option => apply option bundle) options bundle.

Definition NewBundleWithConfig (options : list Option) : Bundle :=
  applyAll options (mkBundle spf13.New).

Definition Name (b : Bundle) : string := BundleName.

(** The five options every [NewBundle] starts from. *)
Definition defaultOptions : list Option :=
  [ AutomaticEnv;
    EnvPrefix "ENV";
    EnvKeyReplacer (strings.NewReplacer [(".", "_")]);
    ConfigName "config";
    ConfigType "json" ].

(** What a build closure or a provider hands to the container: the Go
    pair (object, error), [None] being nil on either side. *)
Definition result : Type := (option spf13.Viper * option error)%type.

(** ** Options as data

    A call of one of the seven constructors.  [build] is the option the
    call returns; the statements about option sequences range over lists
    of calls so that they can name the value each call carries. *)
Inductive OptionCall : Type :=
| CallAutomaticEnv
| CallEnvPrefix (value : string)
| CallEnvKeyReplacer (value : strings.Replacer)
| CallConfigFile (value : string)
| CallConfigName (value : string)
| CallConfigPath (value : string)
| CallConfigType (value : string).

Definition build (c : OptionCall) : Option :=
  match c with
  | CallAutomaticEnv => AutomaticEnv
  | CallEnvPrefix value => EnvPrefix value
  | CallEnvKeyReplacer value => EnvKeyReplacer value
  | CallConfigFile value => ConfigFile value
  | CallConfigName value => ConfigName value
  | CallConfigPath value => ConfigPath value
  | CallConfigType value => ConfigType value
  end.

(** The value of the last call in the sequence that [pick] selects. *)
Fixpoint lastApplied {A : Type} (pick : OptionCall -> option A)
         (calls : list OptionCall) (earlier : option A) : option A :=
  match calls with
  | [] => earlier
  | c :: calls' =>
      lastApplied pick calls'
        (match pick c with Some a => Some a | None => earlier end)
  end.

Definition pickEnvPrefix (c : OptionCall) : option string :=
  match c with CallEnvPrefix v => Some v | _ => None end.
Definition pickEnvKeyReplacer (c : OptionCall) : option strings.Replacer :=
  match c with CallEnvKeyReplacer v => Some v | _ => None end.
Definition pickConfigFile (c : OptionCall) : option string :=
  match c with CallConfigFile v => Some v | _ => None end.
Definition pickConfigName (c : OptionCall) : option string :=
  match c with CallConfigName v => Some v | _ => None end.
Definition pickConfigPath (c : OptionCall) : option string :=
  match c with CallConfigPath v => Some v | _ => None end.
Definition pickConfigType (c : OptionCall) : option string :=
  match c with CallConfigType v => Some v | _ => None end.
Definition isAutomaticEnv (c : OptionCall) : bool :=
  match c with CallAutomaticEnv => true | _ => false end.

(** Every value the sequence applies for the setting, in order. *)
Fixpoint allApplied {A : Type} (pick : OptionCall -> option A)
         (calls : list OptionCall) : list A :=
  match calls with
  | [] => []
  | c :: calls' =>
      match pick c with
      | Some a => a :: allApplied pick calls'
      | None => allApplied pick calls'
      end
  end.

(* ================================================================== *)
(** * First revision ([src/viper.go]): the path comes from the registry *)
Module Rev1.

Definition NewBundle : Bundle := NewBundleWithConfig defaultOptions.

(** The build closure that [Build] registers under [BundleName]. *)
Definition Build (b : Bundle) (ctn : Container) (fs : FileSystem)
  : Bundle * result :=
  match Fill_Registry ctn with
  | inl err => (b, (None, Some err))
  | inr registry =>
      match Fill_string registry "app.path" with
      | inl err => (b, (None, Some err))
      | inr path =>
          let v := spf13.AddConfigPath (viper b) path in
          let '(v', err) := spf13.ReadInConfig v fs in
          (mkBundle v', (Some v', err))
      end
  end.

End Rev1.

(** * Second revision ([src/unnamed/part_000]): registry and cobra command *)
Module Rev2.

Definition NewBundle : Bundle := NewBundleWithConfig defaultOptions.

Definition Build (b : Bundle) (ctn : Container) (fs : FileSystem)
  : Bundle * result :=
  match Fill_Registry ctn with
  | inl err => (b, (None, Some err))
  | inr registry =>
      match Fill_string registry "app.path" with
      | inl err => (b, (None, Some err))
      | inr path =>
          let b1 := mkBundle (spf13.AddConfigPath (viper b) path) in
          match Fill_Command registry "cli.cmd" with
          | inl err => (b1, (None, Some err))
          | inr cmd =>
              match pflag.GetString (Flags cmd) "config" with
              | inl err => (b1, (None, Some err))
              | inr configFile =>
                  let v :=
                    if (0 <? String.length configFile)%nat
                    then spf13.SetConfigFile (viper b1) configFile
                    else viper b1 in
                  let '(v', err) := spf13.ReadInConfig v fs in
                  (mkBundle v', (Some v', err))
              end
          end
      end
  end.

(** The build closure registered under [DefConfigFlag]; [arg0] is
    [os.Args[0]]. *)
Definition BuildConfigFlag (arg0 : string) : pflag.FlagSet * option error :=
  let flagSet := pflag.NewFlagSet arg0 pflag.ExitOnError in
  let flagSet := pflag.StringP flagSet "config" "c" EmptyString "config file" in
  (flagSet, None).

End Rev2.

(** * Third revision ([src/unnamed/part_001], first file): context and
    cobra command *)
Module Rev3.

Definition NewBundle (options : list Option) : Bundle :=
  let opts := defaultOptions in
  let opts := opts ++ options in
  NewBundleWithConfig opts.

Definition Build (b : Bundle) (ctn : Container) (fs : FileSystem)
  : Bundle * result :=
  match Fill_Context ctn with
  | inl err => (b, (None, Some err))
  | inr ctx =>
      match assert_string (Value ctx "app.path") with
      | None => (b, (None, Some ErrUndefinedAppPath))
      | Some path =>
          let b1 := mkBundle (spf13.AddConfigPath (viper b) path) in
          match assert_Command (Value ctx "cli.cmd") with
          | None => (b1, (None, Some ErrUndefinedCliCmd))
          | Some cmd =>
              match pflag.GetString (Flags cmd) "config" with
              | inl err => (b1, (None, Some err))
              | inr configFile =>
                  let v :=
                    if (0 <? String.length configFile)%nat
                    then spf13.SetConfigFile (viper b1) configFile
                    else viper b1 in
                  let '(v', err) := spf13.ReadInConfig v fs in
                  (mkBundle v', (Some v', err))
              end
          end
      end
  end.

Definition BuildConfigFlag (arg0 : string) : pflag.FlagSet * option error :=
  let flagSet := pflag.NewFlagSet arg0 pflag.ExitOnError in
  let flagSet := pflag.StringP flagSet "config" "c" EmptyString "config file" in
  (flagSet, None).

End Rev3.

(** * Fourth revision ([src/unnamed/part_001], second file): two providers *)
Module Rev4.

Definition NewBundle (options : list Option) : Bundle :=
  let opts := defaultOptions in
  let opts := opts ++ options in
  NewBundleWithConfig opts.

(** The configuration stage.  Returns the bundle as the call leaves it and
    the Go pair (object, error). *)
Definition provideViper (b : Bundle) (ctx : Context) (flagSet : pflag.FlagSet)
           (fs : FileSystem) : Bundle * result :=
  match assert_string (Value ctx "app.path") with
  | None => (b, (None, Some ErrUndefinedAppPath))
  | Some path =>
      let b1 := mkBundle (spf13.AddConfigPath (viper b) path) in
      match pflag.GetString flagSet "config" with
      | inl err =>
          (b1, (None, Some (Errorf "unable to get config flag value : " err)))
      | inr configFile =>
          let v :=
            if (0 <? String.length configFile)%nat
            then spf13.SetConfigFile (viper b1) configFile
            else viper b1 in
          let '(v', err) := spf13.ReadInConfig v fs in
          match err with
          | Some e =>
              (mkBundle v',
               (None,
                Some (Errorf ("unable to read config file : '" ++ configFile
                              ++ "' : ") e)))
          | None => (mkBundle v', (Some v', None))
          end
      end
  end.

Section FlagSetStage.

(** [flagSet.Parse(arguments)] of the pflag library: the flag set after
    parsing and the error, if any. *)
Variable Parse : pflag.FlagSet -> list string -> pflag.FlagSet * option error.

(** The flag set before the arguments are parsed into it. *)
Definition declaredFlagSet : pflag.FlagSet :=
  pflag.StringP (pflag.NewFlagSet BundleName pflag.ContinueOnError)
                "config" "c" EmptyString "config file".

(** The flag-set stage; [args] is [os.Args]. *)
Definition provideFlagSet (args : list string) : pflag.FlagSet * option error :=
  let flagSet := declaredFlagSet in
  let '(flagSet, err) := Parse flagSet args in
  let err := if errors_Is err pflag.ErrHelp then None else err in
  (flagSet, err).

(** What the container does with the two providers that [Build]
    registers: [provideViper] takes its second argument from the provider
    tagged [tagViperFlagSet], so the flag-set stage runs first and its
    error, if any, is the error of the resolution. *)
Definition resolve (b : Bundle) (ctx : Context) (args : list string)
           (fs : FileSystem) : Bundle * result :=
  match provideFlagSet args with
  | (_, Some err) => (b, (None, Some err))
  | (flagSet, None) => provideViper b ctx flagSet fs
  end.

End FlagSetStage.

End Rev4.

(** A flag set whose [config] flag currently holds [value]. *)
Definition flagSetWith (value : string) : pflag.FlagSet :=
  {| pflag.name := BundleName;
     pflag.errorHandling := pflag.ContinueOnError;
     pflag.formal :=
       [ {| pflag.Name := "config"; pflag.Shorthand := "c";
            pflag.Usage := "config file";
            pflag.Val := pflag.stringValue value;
            pflag.DefValue := EmptyString |} ] |}.

(** The object on which the configuration stage invokes "read config":
    the bundle's object with the path added and, for a non-empty flag
    value, the explicit config file set. *)
Definition beforeRead (b : Bundle) (path configFile : string) : spf13.Viper :=
  if (0 <? String.length configFile)%nat
  then spf13.SetConfigFile (spf13.AddConfigPath (viper b) path) configFile
  else spf13.AddConfigPath (viper b) path.

(** What the configuration stage hands back once "read config" has
    answered with the object [fst r] and the error [snd r]. *)
Definition readOutcome (configFile : string) (r : spf13.Viper * option error)
  : result :=
  match snd r with
  | Some e =>
      (None,
       Some (Errorf ("unable to read config file : '" ++ configFile ++ "' : ") e))
  | None => (Some (fst r), None)
  end.

(** Whether [needle] occurs in [s]: how an error message "names" a file. *)
Fixpoint contains (needle s : string) : bool :=
  String.prefix needle s ||
  match s with
  | EmptyString => false
  | String _ s' => contains needle s'
  end.

(** The text that the spec's replacer rule yields: every "." becomes "_". *)
Fixpoint dotsToUnderscores (s : string) : string :=
  match s with
  | EmptyString => EmptyString
  | String c s' =>
      String (if Ascii.eqb c "."%char then "_"%char else c) (dotsToUnderscores s')
  end.

(** The settings of the object that [Rev1.NewBundle] to [Rev4.NewBundle]
    build when the caller adds nothing. *)
Definition defaultViper : spf13.Viper :=
  {| spf13.automaticEnvApplied := true;
     spf13.envPrefix := "ENV";
     spf13.envKeyReplacer := Some (strings.NewReplacer [(".", "_")]);
     spf13.configFile := EmptyString;
     spf13.configName := "config";
     spf13.configPaths := [];
     spf13.configType := "json";
     spf13.config := [] |}.

(** ** Sample inputs

    A context that supplies the path "/app", a bundle that renames the
    file it looks for, and a file system holding a file for discovery and
    a file for the flag. *)
Definition sampleContext : Context := [("app.path", anyString "/app")].

Definition sampleBundle : Bundle :=
  Rev4.NewBundle [ConfigName "settings"; ConfigType "yaml"].

Definition sampleFiles : FileSystem :=
  [("/app/settings.yaml", Encoded "yaml" [("source", "discovered")]);
   ("/app/config.json", Encoded "json" [("source", "discovered")]);
   ("/etc/app/custom.yaml", Encoded "yaml" [("source", "explicit")]);
   ("/etc/app/custom.json", Encoded "json" [("source", "explicit")])].

(** A command whose flag set holds [value] under "config", a store (a
    registry or a context) that supplies the path "/app" and that command,
    and the containers of the older revisions that hold the store. *)
Definition sampleCommand (value : string) : Command :=
  mkCommand (flagSetWith value).

Definition sampleStore (value : string) : list (string * any) :=
  [("app.path", anyString "/app"); ("cli.cmd", anyCommand (sampleCommand value))].

Definition registryContainer (r : Registry) : Container :=
  mkContainer (Some r) None.

Definition contextContainer (ctx : Context) : Container :=
  mkContainer None (Some ctx).

(** Outcomes of [Parse] on particular argument lists: the arguments hold
    [--config value]; the arguments ask for help; the arguments hold a
    flag that is not declared. *)
Definition parsedConfig (value : string)
  : pflag.FlagSet -> list string -> pflag.FlagSet * option error :=
  fun _ _ => (flagSetWith value, None).

Definition parsedHelp
  : pflag.FlagSet -> list string -> pflag.FlagSet * option error :=
  fun flagSet _ => (flagSet, Some pflag.ErrHelp).

Definition parsedUnknownFlag
  : pflag.FlagSet -> list string -> pflag.FlagSet * option error :=
  fun flagSet _ => (flagSet, Some (FlagError "unknown flag: --verbose")).

(* ================================================================== *)
(** * Properties *)

(** ** Strings and errors *)

Lemma length_zero_empty (s : string) :
  (0 <? String.length s)%nat = negb (String.eqb s EmptyString).
Proof. destruct s; reflexivity. Qed.

Lemma nonempty_length (s : string) :
  s <> EmptyString -> (0 <? String.length s)%nat = true.
Proof. destruct s; [congruence | reflexivity]. Qed.

Lemma prefix_empty (s : string) : String.prefix EmptyString s = true.
Proof. destruct s; reflexivity. Qed.

Lemma Replace_dots (s : string) :
  strings.Replace (strings.NewReplacer [(".", "_")]) s = dotsToUnderscores s.
Proof.
  unfold strings.Replace, strings.NewReplacer.
  induction s as [|c s IH]; [reflexivity|].
  cbn [strings.replace_from strings.first_match dotsToUnderscores].
  change (negb (String.eqb "." EmptyString)) with true.
  cbn [andb String.prefix].
  destruct (ascii_dec "."%char c) as [<-|Hne].
  - rewrite prefix_empty. cbn. now rewrite IH.
  - rewrite (proj2 (Ascii.eqb_neq c "."%char)) by congruence.
    now rewrite IH.
Qed.

Lemma append_assoc (s t u : string) :
  ((s ++ t) ++ u = s ++ (t ++ u))%string.
Proof. induction s as [|c s IH]; cbn; [reflexivity | now rewrite IH]. Qed.

Lemma ToUpper_app (s t : string) :
  strings.ToUpper (s ++ t) = (strings.ToUpper s ++ strings.ToUpper t)%string.
Proof. induction s as [|c s IH]; cbn; [reflexivity | now rewrite IH]. Qed.

Lemma error_eqb_refl (e : error) : error_eqb e e = true.
Proof. unfold error_eqb. destruct (error_eq_dec e e); congruence. Qed.

Lemma Is_chain_refl (e : error) : Is_chain e e = true.
Proof. destruct e; cbn [Is_chain]; now rewrite error_eqb_refl. Qed.

(** ** The configuration library *)

Lemma ReadInConfig_failure (v v' : spf13.Viper) (fs : FileSystem) (e : error) :
  spf13.ReadInConfig v fs = (v', Some e) -> v' = v.
Proof.
  unfold spf13.ReadInConfig.
  destruct (spf13.getConfigFile v fs) as [e0|file]; [congruence|].
  destruct (Open fs file) as [f|]; [|congruence].
  destruct (spf13.decode (spf13.configType v) f); congruence.
Qed.

Lemma ReadInConfig_success (v v' : spf13.Viper) (fs : FileSystem) :
  spf13.ReadInConfig v fs = (v', None) ->
  exists file f m,
    spf13.getConfigFile v fs = inr file /\
    Open fs file = Some f /\
    spf13.decode (spf13.configType v) f = Some m /\
    v' = spf13.setConfig v m.
Proof.
  unfold spf13.ReadInConfig.
  destruct (spf13.getConfigFile v fs) as [e0|file]; [congruence|].
  destruct (Open fs file) as [f|] eqn:Hopen; [|congruence].
  destruct (spf13.decode (spf13.configType v) f) as [m|] eqn:Hdec; [|congruence].
  intros [= <-]. now exists file, f, m.
Qed.

Lemma getConfigFile_explicit (v : spf13.Viper) (fs : FileSystem) :
  spf13.configFile v <> EmptyString ->
  spf13.getConfigFile v fs = inr (spf13.configFile v).
Proof.
  intros Hne. unfold spf13.getConfigFile.
  destruct (String.eqb_spec (spf13.configFile v) EmptyString); [contradiction|].
  reflexivity.
Qed.

(** ** The configuration stage, step by step *)

Lemma provideViper_reads (b : Bundle) (ctx : Context) (flagSet : pflag.FlagSet)
      (fs : FileSystem) (path configFile : string) :
  assert_string (Value ctx "app.path") = Some path ->
  pflag.GetString flagSet "config" = inr configFile ->
  Rev4.provideViper b ctx flagSet fs =
  (mkBundle (fst (spf13.ReadInConfig (beforeRead b path configFile) fs)),
   readOutcome configFile (spf13.ReadInConfig (beforeRead b path configFile) fs)).
Proof.
  intros Hpath Hflag. unfold Rev4.provideViper, beforeRead, readOutcome.
  rewrite Hpath, Hflag. cbn [viper].
  destruct (spf13.ReadInConfig _ fs) as [v' [e|]]; reflexivity.
Qed.

(** "Read config" changes nothing but the loaded settings. *)
Lemma ReadInConfig_keeps_settings (v : spf13.Viper) (fs : FileSystem) :
  let v' := fst (spf13.ReadInConfig v fs) in
  spf13.automaticEnvApplied v' = spf13.automaticEnvApplied v /\
  spf13.envPrefix v' = spf13.envPrefix v /\
  spf13.envKeyReplacer v' = spf13.envKeyReplacer v /\
  spf13.configFile v' = spf13.configFile v /\
  spf13.configName v' = spf13.configName v /\
  spf13.configPaths v' = spf13.configPaths v /\
  spf13.configType v' = spf13.configType v.
Proof.
  cbv zeta. destruct (spf13.ReadInConfig v fs) as [v' [e|]] eqn:Hread; cbn [fst].
  - now rewrite (ReadInConfig_failure _ _ _ _ Hread).
  - destruct (ReadInConfig_success _ _ _ Hread) as (file & f & m & _ & _ & _ & ->).
    now cbn.
Qed.

Lemma provideViper_flag_error (b : Bundle) (ctx : Context)
      (flagSet : pflag.FlagSet) (fs : FileSystem) (path : string) (e : error) :
  assert_string (Value ctx "app.path") = Some path ->
  pflag.GetString flagSet "config" = inl e ->
  Rev4.provideViper b ctx flagSet fs =
  (mkBundle (spf13.AddConfigPath (viper b) path),
   (None, Some (Errorf "unable to get config flag value : " e))).
Proof.
  intros Hpath Hflag. unfold Rev4.provideViper. now rewrite Hpath, Hflag.
Qed.

(** ** A context without a path *)

(** C1.  When the context has no string under "app.path" (the key is
    absent, or bound to a value of another type), the configuration stage
    returns the sentinel [ErrUndefinedAppPath] and no configuration
    object; the bundle is not touched. *)
Theorem provideViper_undefined_app_path
        (b : Bundle) (ctx : Context) (flagSet : pflag.FlagSet) (fs : FileSystem) :
  (forall path, Value ctx "app.path" <> Some (anyString path)) ->
  Rev4.provideViper b ctx flagSet fs = (b, (None, Some ErrUndefinedAppPath)).
Proof.
  intros Hundef. unfold Rev4.provideViper.
  destruct (Value ctx "app.path") as [[path| |]|]; cbn; try reflexivity.
  now destruct (Hundef path).
Qed.

Lemma provideViper_undefined_app_path_witness :
  (forall path,
      Value [("cli.cmd", anyOther "int"); ("app.path", anyOther "int")] "app.path"
      <> Some (anyString path)) /\
  Rev4.provideViper (Rev4.NewBundle [])
                    [("cli.cmd", anyOther "int"); ("app.path", anyOther "int")]
                    (flagSetWith "/etc/app.json")
                    [("/etc/app.json", Encoded "json" [])]
  = (Rev4.NewBundle [], (None, Some ErrUndefinedAppPath)).
Proof.
  split.
  - intros path. cbn. discriminate.
  - apply provideViper_undefined_app_path. intros path. cbn. discriminate.
Defined.

(** The sentinel is distinct: once the context supplies a path, no error
    of the configuration stage is, or wraps, [ErrUndefinedAppPath]. *)
Lemma provideViper_sentinel_only_without_path
      (b b' : Bundle) (ctx : Context) (flagSet : pflag.FlagSet) (fs : FileSystem)
      (path : string) (obj : option spf13.Viper) (err : option error) :
  assert_string (Value ctx "app.path") = Some path ->
  Rev4.provideViper b ctx flagSet fs = (b', (obj, err)) ->
  errors_Is err ErrUndefinedAppPath = false.
Proof.
  intros Hpath. unfold Rev4.provideViper. rewrite Hpath.
  destruct (pflag.GetString flagSet "config") as [e|configFile] eqn:Hflag.
  - intros [= _ _ <-]. unfold pflag.GetString in Hflag.
    destruct (pflag.Lookup flagSet "config") as [fl|]; [destruct (pflag.Val fl)|];
      inversion Hflag; reflexivity.
  - destruct (spf13.ReadInConfig _ fs) as [v' [e|]] eqn:Hread;
      intros [= _ _ <-]; [|reflexivity].
    unfold spf13.ReadInConfig in Hread.
    destruct (spf13.getConfigFile _ fs) as [e0|file] eqn:Hget.
    + unfold spf13.getConfigFile in Hget.
      destruct (negb _); [discriminate|].
      destruct (spf13.findConfigFile _ fs); [discriminate|].
      inversion Hget; subst. inversion Hread; subst. reflexivity.
    + destruct (Open fs file); [|inversion Hread; reflexivity].
      destruct (spf13.decode _ _); inversion Hread; reflexivity.
Qed.

(** The third revision answers a context without a path in the same way. *)
Lemma Rev3_Build_undefined_app_path
      (b : Bundle) (ctn : Container) (ctx : Context) (fs : FileSystem) :
  DefContext ctn = Some ctx ->
  (forall path, Value ctx "app.path" <> Some (anyString path)) ->
  Rev3.Build b ctn fs = (b, (None, Some ErrUndefinedAppPath)).
Proof.
  intros Hctx Hundef. unfold Rev3.Build, Fill_Context. rewrite Hctx.
  destruct (Value ctx "app.path") as [[path| |]|]; cbn; try reflexivity.
  now destruct (Hundef path).
Qed.

(** ** The config flag *)

(** C2, as the claim states it, fails: a bundle built with the
    [ConfigFile] option keeps that explicit file when the flag is empty,
    and discovery (which would find "/app/config.json") is not used. *)
Lemma empty_flag_keeps_option_file_counterexample :
  ~ (forall (b : Bundle) (ctx : Context) (flagSet : pflag.FlagSet)
            (fs : FileSystem) (path : string),
        assert_string (Value ctx "app.path") = Some path ->
        pflag.GetString flagSet "config" = inr EmptyString ->
        let v' := viper (fst (Rev4.provideViper b ctx flagSet fs)) in
        spf13.configFile v' = EmptyString /\
        spf13.getConfigFile v' fs =
        match spf13.findConfigFile v' fs with
        | Some f => inr f
        | None =>
            inl (ConfigFileNotFoundError (spf13.configName v') (spf13.configPaths v'))
        end).
Proof.
  intros H.
  specialize (H (Rev4.NewBundle [ConfigFile "/etc/app/custom.json"])
                sampleContext (flagSetWith EmptyString) sampleFiles
                "/app" eq_refl eq_refl).
  destruct H as [H _]. vm_compute in H. discriminate H.
Qed.

(** C2, amended.  A non-empty flag value becomes the explicit config file
    of the bundle's object, and that file is the one "read config" goes
    for, whatever name, search paths and type are configured.  An empty
    flag value sets nothing: the explicit config file stays as the options
    left it, and discovery by name, path and type is used exactly when the
    options set none. *)
Theorem provideViper_config_flag
        (b : Bundle) (ctx : Context) (flagSet : pflag.FlagSet) (fs : FileSystem)
        (path configFile : string) :
  assert_string (Value ctx "app.path") = Some path ->
  pflag.GetString flagSet "config" = inr configFile ->
  let v' := viper (fst (Rev4.provideViper b ctx flagSet fs)) in
  (configFile <> EmptyString ->
   spf13.configFile v' = configFile /\
   (forall fs', spf13.getConfigFile v' fs' = inr configFile) /\
   (forall v, snd (Rev4.provideViper b ctx flagSet fs) = (Some v, None) ->
              exists f, Open fs configFile = Some f /\
                        spf13.decode (spf13.configType (viper b)) f
                        = Some (spf13.config v))) /\
  (configFile = EmptyString ->
   spf13.configFile v' = spf13.configFile (viper b) /\
   (spf13.configFile (viper b) <> EmptyString ->
    spf13.getConfigFile v' fs = inr (spf13.configFile (viper b))) /\
   (spf13.configFile (viper b) = EmptyString ->
    spf13.getConfigFile v' fs =
    match spf13.searchInPaths fs (spf13.discoveredName (viper b))
                              (spf13.configPaths (viper b) ++ [path]) with
    | Some f => inr f
    | None =>
        inl (ConfigFileNotFoundError (spf13.configName (viper b))
                                     (spf13.configPaths (viper b) ++ [path]))
    end)).
Proof.
  intros Hpath Hflag. cbv zeta.
  rewrite (provideViper_reads b ctx flagSet fs path configFile Hpath Hflag).
  cbn [fst snd viper].
  set (v := beforeRead b path configFile).
  destruct (ReadInConfig_keeps_settings v fs)
    as (_ & _ & _ & Hfile & Hname & Hpaths & Htype).
  cbv zeta in Hfile, Hname, Hpaths, Htype.
  split.
  - intros Hne.
    assert (Hv : spf13.configFile v = configFile /\
                 spf13.configType v = spf13.configType (viper b)).
    { subst v. unfold beforeRead. rewrite (nonempty_length _ Hne). now cbn. }
    destruct Hv as [Hvfile Hvtype].
    assert (Hset : spf13.configFile (fst (spf13.ReadInConfig v fs)) = configFile)
      by congruence.
    split; [exact Hset|]. split.
    + intros fs'.
      rewrite (getConfigFile_explicit _ fs') by congruence.
      now rewrite Hset.
    + intros v0 Hok. unfold readOutcome in Hok.
      destruct (spf13.ReadInConfig v fs) as [v' [e|]] eqn:Hread;
        cbn [fst snd] in Hok; [discriminate Hok|].
      injection Hok as <-.
      destruct (ReadInConfig_success _ _ _ Hread)
        as (file & f & m & Hget & Hopen & Hdec & ->).
      rewrite getConfigFile_explicit in Hget by congruence.
      injection Hget as <-. rewrite Hvfile in Hopen. rewrite Hvtype in Hdec.
      exists f. now cbn.
  - intros ->.
    assert (Hv : v = spf13.AddConfigPath (viper b) path) by reflexivity.
    assert (Hvfile : spf13.configFile (fst (spf13.ReadInConfig v fs))
                     = spf13.configFile (viper b))
      by (rewrite Hfile, Hv; reflexivity).
    split; [exact Hvfile|]. split.
    + intros Hne. rewrite <- Hvfile. apply getConfigFile_explicit. congruence.
    + intros Hempty. unfold spf13.getConfigFile, spf13.findConfigFile,
        spf13.discoveredName.
      rewrite Hvfile, Hempty, Hname, Hpaths, Htype, Hv. reflexivity.
Qed.

Lemma provideViper_config_flag_witness :
  assert_string (Value sampleContext "app.path") = Some "/app" /\
  pflag.GetString (flagSetWith "/etc/app/custom.yaml") "config"
  = inr "/etc/app/custom.yaml" /\
  spf13.configFile
    (viper (fst (Rev4.provideViper sampleBundle sampleContext
                                   (flagSetWith "/etc/app/custom.yaml")
                                   sampleFiles)))
  = "/etc/app/custom.yaml".
Proof.
  split; [reflexivity|]. split; [reflexivity|].
  refine (proj1 (proj1 (provideViper_config_flag
                          sampleBundle sampleContext
                          (flagSetWith "/etc/app/custom.yaml") sampleFiles
                          "/app" "/etc/app/custom.yaml" eq_refl eq_refl) _)).
  discriminate.
Defined.

(** ** Option application *)

(** What a sequence of option calls does to the settings of any bundle:
    each written setting holds the last value written, the search paths
    grow by every path in order, automatic env is on once it was on or is
    asked for, and nothing is loaded. *)
Lemma applyAll_settings (calls : list OptionCall) :
  forall b : Bundle,
    let v := viper (applyAll (map build calls) b) in
    Some (spf13.envPrefix v)
    = lastApplied pickEnvPrefix calls (Some (spf13.envPrefix (viper b))) /\
    spf13.envKeyReplacer v
    = lastApplied pickEnvKeyReplacer calls (spf13.envKeyReplacer (viper b)) /\
    Some (spf13.configFile v)
    = lastApplied pickConfigFile calls (Some (spf13.configFile (viper b))) /\
    Some (spf13.configName v)
    = lastApplied pickConfigName calls (Some (spf13.configName (viper b))) /\
    Some (spf13.configType v)
    = lastApplied pickConfigType calls (Some (spf13.configType (viper b))) /\
    spf13.configPaths v
    = spf13.configPaths (viper b) ++ allApplied pickConfigPath calls /\
    spf13.automaticEnvApplied v
    = (spf13.automaticEnvApplied (viper b) || existsb isAutomaticEnv calls)%bool /\
    spf13.config v = spf13.config (viper b).
Proof.
  induction calls as [|c calls IH]; intros b; cbv zeta.
  - cbn. rewrite app_nil_r, orb_false_r. repeat split; reflexivity.
  - change (applyAll (map build (c :: calls)) b)
      with (applyAll (map build calls) (apply (build c) b)).
    destruct (IH (apply (build c) b))
      as (Hprefix & Hrepl & Hfile & Hname & Htype & Hpaths & Henv & Hconf).
    rewrite Hprefix, Hrepl, Hfile, Hname, Htype, Hpaths, Henv, Hconf.
    destruct c; cbn; rewrite <- ?app_assoc, ?orb_true_r;
      repeat split; reflexivity.
Qed.

Lemma applyAll_app (xs ys : list Option) (b : Bundle) :
  applyAll (xs ++ ys) b = applyAll ys (applyAll xs b).
Proof. unfold applyAll. apply fold_left_app. Qed.

(** C3, as the claim states it, fails for the config search path: two
    [ConfigPath] options leave both paths on the object, not the last one
    alone. *)
Lemma config_path_last_write_counterexample :
  ~ (forall (calls : list OptionCall) (value : string),
        lastApplied pickConfigPath calls None = Some value ->
        spf13.configPaths (viper (NewBundleWithConfig (map build calls)))
        = [value]).
Proof.
  intros H.
  specialize (H [CallConfigPath "/etc/app"; CallConfigPath "/opt/app"]
                "/opt/app" eq_refl).
  vm_compute in H. discriminate H.
Qed.

(** C3, amended.  [NewBundleWithConfig] applies the options one after
    another to a fresh configuration object.  For the environment prefix,
    the key replacer, the config file, the config name and the config type
    the object holds the last value applied (the fresh object's value when
    no option writes the setting); automatic env is on exactly when an
    [AutomaticEnv] option occurs; the config search paths are all the
    paths applied, in order of application. *)
Theorem NewBundleWithConfig_last_write_wins (calls : list OptionCall) :
  let v := viper (NewBundleWithConfig (map build calls)) in
  NewBundleWithConfig [] = mkBundle spf13.New /\
  (forall (options : list Option) (option : Option),
      NewBundleWithConfig (options ++ [option])
      = apply option (NewBundleWithConfig options)) /\
  Some (spf13.envPrefix v)
  = lastApplied pickEnvPrefix calls (Some (spf13.envPrefix spf13.New)) /\
  spf13.envKeyReplacer v = lastApplied pickEnvKeyReplacer calls None /\
  Some (spf13.configFile v)
  = lastApplied pickConfigFile calls (Some (spf13.configFile spf13.New)) /\
  Some (spf13.configName v)
  = lastApplied pickConfigName calls (Some (spf13.configName spf13.New)) /\
  Some (spf13.configType v)
  = lastApplied pickConfigType calls (Some (spf13.configType spf13.New)) /\
  spf13.automaticEnvApplied v = existsb isAutomaticEnv calls /\
  spf13.configPaths v = allApplied pickConfigPath calls.
Proof.
  cbv zeta. split; [reflexivity|]. split.
  - intros options option. unfold NewBundleWithConfig.
    now rewrite applyAll_app.
  - unfold NewBundleWithConfig.
    destruct (applyAll_settings calls (mkBundle spf13.New))
      as (Hprefix & Hrepl & Hfile & Hname & Htype & Hpaths & Henv & _).
    repeat split; assumption.
Qed.

(** A written setting holds the last value written, whatever came before. *)
Lemma lastApplied_written {A : Type} (pick : OptionCall -> option A)
      (calls : list OptionCall) (a : A) :
  lastApplied pick calls None = Some a ->
  forall earlier, lastApplied pick calls earlier = Some a.
Proof.
  revert a. induction calls as [|c calls IH] using rev_ind; intros a.
  - discriminate.
  - assert (Hsnoc : forall e, lastApplied pick (calls ++ [c]) e
                     = match pick c with
                       | Some x => Some x
                       | None => lastApplied pick calls e
                       end).
    { clear. induction calls as [|d calls IH]; intros e; cbn.
      - destruct (pick c); reflexivity.
      - apply IH. }
    rewrite Hsnoc. intros H earlier. rewrite Hsnoc.
    destruct (pick c); [assumption | now apply IH].
Qed.

(** C4.  With no option supplied, every revision of [NewBundle] applies
    the default option set: automatic env on, prefix "ENV", a replacer
    from "." to "_", name "config", type "json"; no config file, no
    search path. *)
Theorem NewBundle_default_option_set :
  Rev4.NewBundle [] = NewBundleWithConfig defaultOptions /\
  defaultOptions = map build
    [ CallAutomaticEnv; CallEnvPrefix "ENV";
      CallEnvKeyReplacer (strings.NewReplacer [(".", "_")]);
      CallConfigName "config"; CallConfigType "json" ] /\
  viper (Rev4.NewBundle []) = defaultViper /\
  viper (Rev3.NewBundle []) = defaultViper /\
  viper Rev2.NewBundle = defaultViper /\
  viper Rev1.NewBundle = defaultViper /\
  spf13.automaticEnvApplied defaultViper = true /\
  spf13.envPrefix defaultViper = "ENV" /\
  spf13.envKeyReplacer defaultViper = Some [(".", "_")] /\
  spf13.configName defaultViper = "config" /\
  spf13.configType defaultViper = "json".
Proof. repeat split; reflexivity. Qed.

(** C10.  [NewBundle] with options applies the five defaults first and the
    caller's options after them, in the caller's order: the bundle is the
    default bundle with the caller's options applied on top, so each
    setting that options overwrite holds the caller's last value when the
    caller supplies one and the default otherwise (no default exists for
    the config file).  Search paths only accumulate and automatic env
    stays on. *)
Theorem NewBundle_caller_options_override (calls : list OptionCall) :
  let v := viper (Rev4.NewBundle (map build calls)) in
  Rev4.NewBundle (map build calls)
  = NewBundleWithConfig (defaultOptions ++ map build calls) /\
  Rev4.NewBundle (map build calls)
  = applyAll (map build calls) (Rev4.NewBundle []) /\
  Rev3.NewBundle (map build calls) = Rev4.NewBundle (map build calls) /\
  Some (spf13.envPrefix v) = lastApplied pickEnvPrefix calls (Some "ENV") /\
  spf13.envKeyReplacer v
  = lastApplied pickEnvKeyReplacer calls
                (Some (strings.NewReplacer [(".", "_")])) /\
  Some (spf13.configName v) = lastApplied pickConfigName calls (Some "config") /\
  Some (spf13.configType v) = lastApplied pickConfigType calls (Some "json") /\
  Some (spf13.configFile v)
  = lastApplied pickConfigFile calls (Some EmptyString) /\
  spf13.configPaths v = allApplied pickConfigPath calls /\
  spf13.automaticEnvApplied v = true /\
  (forall value, lastApplied pickEnvPrefix calls None = Some value ->
                 spf13.envPrefix v = value) /\
  (forall value, lastApplied pickEnvKeyReplacer calls None = Some value ->
                 spf13.envKeyReplacer v = Some value) /\
  (forall value, lastApplied pickConfigName calls None = Some value ->
                 spf13.configName v = value) /\
  (forall value, lastApplied pickConfigType calls None = Some value ->
                 spf13.configType v = value).
Proof.
  cbv zeta.
  assert (Hsplit : Rev4.NewBundle (map build calls)
                   = applyAll (map build calls) (Rev4.NewBundle [])).
  { unfold Rev4.NewBundle, NewBundleWithConfig.
    now rewrite app_nil_r, applyAll_app. }
  split; [reflexivity|]. split; [exact Hsplit|]. split; [reflexivity|].
  rewrite Hsplit.
  destruct (applyAll_settings calls (Rev4.NewBundle []))
    as (Hprefix & Hrepl & Hfile & Hname & Htype & Hpaths & Henv & _).
  cbv zeta in *.
  repeat match goal with |- _ /\ _ => split end; try assumption.
  - intros value Hlast.
    rewrite (lastApplied_written _ _ _ Hlast) in Hprefix. congruence.
  - intros value Hlast.
    rewrite (lastApplied_written _ _ _ Hlast) in Hrepl. congruence.
  - intros value Hlast.
    rewrite (lastApplied_written _ _ _ Hlast) in Hname. congruence.
  - intros value Hlast.
    rewrite (lastApplied_written _ _ _ Hlast) in Htype. congruence.
Qed.

Lemma NewBundle_caller_options_override_witness :
  lastApplied pickEnvPrefix
              [CallEnvPrefix "APP"; CallConfigType "yaml"; CallEnvPrefix "SVC"]
              None = Some "SVC" /\
  spf13.envPrefix
    (viper (Rev4.NewBundle
              (map build [CallEnvPrefix "APP"; CallConfigType "yaml";
                          CallEnvPrefix "SVC"]))) = "SVC".
Proof.
  split; [reflexivity|].
  apply (NewBundle_caller_options_override
           [CallEnvPrefix "APP"; CallConfigType "yaml"; CallEnvPrefix "SVC"]).
  reflexivity.
Defined.

(** ** The flag-set stage *)

(** C5.  The flag-set stage declares exactly one flag, the string flag
    "config" with shorthand "c" and the empty string as default, parses
    the process arguments into that flag set, returns the parsed flag set
    without error when parsing succeeds or reports a help request, and
    returns any other parse error as its own. *)
Theorem provideFlagSet_contract
        (Parse : pflag.FlagSet -> list string -> pflag.FlagSet * option error)
        (args : list string) :
  pflag.formal Rev4.declaredFlagSet
  = [ pflag.mkFlag "config" "c" "config file"
                   (pflag.stringValue EmptyString) EmptyString ] /\
  (forall n, pflag.Lookup Rev4.declaredFlagSet n
             = if String.eqb "config" n
               then Some (pflag.mkFlag "config" "c" "config file"
                                       (pflag.stringValue EmptyString) EmptyString)
               else None) /\
  pflag.GetString Rev4.declaredFlagSet "config" = inr EmptyString /\
  fst (Rev4.provideFlagSet Parse args) = fst (Parse Rev4.declaredFlagSet args) /\
  snd (Rev4.provideFlagSet Parse args)
  = match snd (Parse Rev4.declaredFlagSet args) with
    | None => None
    | Some err =>
        if errors_Is (Some err) pflag.ErrHelp then None else Some err
    end.
Proof.
  assert (Hlookup : forall n, pflag.Lookup Rev4.declaredFlagSet n
             = if String.eqb "config" n
               then Some (pflag.mkFlag "config" "c" "config file"
                                       (pflag.stringValue EmptyString) EmptyString)
               else None).
  { intros n. unfold pflag.Lookup. cbn [Rev4.declaredFlagSet pflag.formal
      pflag.StringP pflag.NewFlagSet app find pflag.Name].
    now destruct (String.eqb "config" n). }
  split; [reflexivity|]. split; [exact Hlookup|]. split; [reflexivity|].
  unfold Rev4.provideFlagSet.
  destruct (Parse Rev4.declaredFlagSet args) as [flagSet [err|]]; cbn [fst snd].
  - destruct (errors_Is (Some err) pflag.ErrHelp); split; reflexivity.
  - split; reflexivity.
Qed.

(** The second and third revisions declare the same single flag and leave
    parsing to the host application. *)
Lemma BuildConfigFlag_declares_config (arg0 : string) :
  Rev2.BuildConfigFlag arg0 = Rev3.BuildConfigFlag arg0 /\
  pflag.formal (fst (Rev2.BuildConfigFlag arg0))
  = pflag.formal Rev4.declaredFlagSet /\
  snd (Rev2.BuildConfigFlag arg0) = None.
Proof. repeat split. Qed.

(** When the flag-set stage fails, the configuration stage does not run:
    the error is the error of the resolution and the bundle is as before. *)
Lemma resolve_flag_stage_error
      (Parse : pflag.FlagSet -> list string -> pflag.FlagSet * option error)
      (b : Bundle) (ctx : Context) (args : list string) (fs : FileSystem)
      (err : error) :
  snd (Rev4.provideFlagSet Parse args) = Some err ->
  Rev4.resolve Parse b ctx args fs = (b, (None, Some err)).
Proof.
  unfold Rev4.resolve. destruct (Rev4.provideFlagSet Parse args) as [flagSet e].
  cbn [snd]. now intros ->.
Qed.

Lemma resolve_flag_stage_ok
      (Parse : pflag.FlagSet -> list string -> pflag.FlagSet * option error)
      (b : Bundle) (ctx : Context) (args : list string) (fs : FileSystem) :
  snd (Rev4.provideFlagSet Parse args) = None ->
  Rev4.resolve Parse b ctx args fs
  = Rev4.provideViper b ctx (fst (Rev4.provideFlagSet Parse args)) fs.
Proof.
  unfold Rev4.resolve. destruct (Rev4.provideFlagSet Parse args) as [flagSet e].
  cbn [fst snd]. now intros ->.
Qed.

(** ** Failing reads *)

Lemma prefix_app (x y : string) : String.prefix x (x ++ y) = true.
Proof.
  induction x as [|c x IH]; cbn.
  - apply prefix_empty.
  - destruct (ascii_dec c c); [exact IH | congruence].
Qed.

Lemma contains_prefix (x s : string) :
  String.prefix x s = true -> contains x s = true.
Proof. intros H. destruct s; cbn [contains]; now rewrite H. Qed.

Lemma contains_app (x a c : string) : contains x (a ++ x ++ c) = true.
Proof.
  induction a as [|ch a IH]; cbn [String.append].
  - apply contains_prefix, prefix_app.
  - cbn [contains]. rewrite IH. apply orb_true_r.
Qed.

(** C6, as the claim states it, fails: with an empty flag the file that
    "read config" attempts is the discovered "/app/config.json", and when
    that file does not decode, the error of the resolution names no file
    at all. *)
Lemma read_error_names_attempted_file_counterexample :
  ~ (forall (b : Bundle) (ctx : Context) (flagSet : pflag.FlagSet)
            (fs : FileSystem) (path configFile file : string) (e err : error),
        assert_string (Value ctx "app.path") = Some path ->
        pflag.GetString flagSet "config" = inr configFile ->
        spf13.getConfigFile (beforeRead b path configFile) fs = inr file ->
        snd (spf13.ReadInConfig (beforeRead b path configFile) fs) = Some e ->
        snd (snd (Rev4.provideViper b ctx flagSet fs)) = Some err ->
        Unwrap err = Some e /\ contains file (Error err) = true).
Proof.
  intros H.
  specialize (H (Rev4.NewBundle []) sampleContext (flagSetWith EmptyString)
                [("/app/config.json", Garbled)]
                "/app" EmptyString "/app/config.json" ConfigParseError
                (Errorf "unable to read config file : '' : " ConfigParseError)
                eq_refl eq_refl eq_refl eq_refl eq_refl).
  destruct H as [_ H]. vm_compute in H. discriminate H.
Qed.

(** C6, amended.  Whenever "read config" fails during resolution, the
    error of the resolution wraps the underlying error together with the
    value of the config flag.  When that value is not empty it is the
    name of the file that was attempted, so the error names the file; in
    particular a flag value naming a file that does not exist yields an
    error naming that file. *)
Theorem provideViper_read_error
        (b : Bundle) (ctx : Context) (flagSet : pflag.FlagSet) (fs : FileSystem)
        (path configFile : string) (e : error) :
  assert_string (Value ctx "app.path") = Some path ->
  pflag.GetString flagSet "config" = inr configFile ->
  snd (spf13.ReadInConfig (beforeRead b path configFile) fs) = Some e ->
  let err :=
    Errorf ("unable to read config file : '" ++ configFile ++ "' : ") e in
  snd (Rev4.provideViper b ctx flagSet fs) = (None, Some err) /\
  Unwrap err = Some e /\
  errors_Is (Some err) e = true /\
  contains configFile (Error err) = true /\
  (configFile <> EmptyString ->
   spf13.getConfigFile (beforeRead b path configFile) fs = inr configFile) /\
  (configFile <> EmptyString -> Open fs configFile = None ->
   e = ConfigReadError configFile).
Proof.
  intros Hpath Hflag Hread. cbv zeta.
  rewrite (provideViper_reads b ctx flagSet fs path configFile Hpath Hflag).
  cbn [snd]. unfold readOutcome. rewrite Hread.
  split; [reflexivity|]. split; [reflexivity|]. split.
  { unfold errors_Is. cbn [Is_chain]. rewrite Is_chain_refl. apply orb_true_r. }
  split.
  { cbn [Error]. rewrite !append_assoc.
    apply (contains_app configFile "unable to read config file : '"). }
  assert (Hexplicit : configFile <> EmptyString ->
            spf13.getConfigFile (beforeRead b path configFile) fs = inr configFile).
  { intros Hne.
    assert (Hfile : spf13.configFile (beforeRead b path configFile) = configFile).
    { unfold beforeRead. rewrite (nonempty_length _ Hne). reflexivity. }
    rewrite getConfigFile_explicit; congruence. }
  split; [exact Hexplicit|].
  intros Hne Hmissing. unfold spf13.ReadInConfig in Hread.
  rewrite (Hexplicit Hne), Hmissing in Hread. cbn in Hread. congruence.
Qed.

Lemma provideViper_read_error_witness :
  assert_string (Value sampleContext "app.path") = Some "/app" /\
  pflag.GetString (flagSetWith "/etc/app/missing.yaml") "config"
  = inr "/etc/app/missing.yaml" /\
  snd (spf13.ReadInConfig
         (beforeRead sampleBundle "/app" "/etc/app/missing.yaml") sampleFiles)
  = Some (ConfigReadError "/etc/app/missing.yaml") /\
  snd (Rev4.provideViper sampleBundle sampleContext
                         (flagSetWith "/etc/app/missing.yaml") sampleFiles)
  = (None,
     Some (Errorf "unable to read config file : '/etc/app/missing.yaml' : "
                  (ConfigReadError "/etc/app/missing.yaml"))).
Proof.
  split; [reflexivity|]. split; [reflexivity|]. split; [reflexivity|].
  exact (proj1 (provideViper_read_error
                  sampleBundle sampleContext
                  (flagSetWith "/etc/app/missing.yaml") sampleFiles
                  "/app" "/etc/app/missing.yaml"
                  (ConfigReadError "/etc/app/missing.yaml")
                  eq_refl eq_refl eq_refl)).
Defined.

(** The first three revisions hand the error of "read config" back as it
    is, next to the object. *)
Lemma Rev1_Build_read_error
      (b : Bundle) (ctn : Container) (registry : Registry) (fs : FileSystem)
      (path : string) :
  DefRegistry ctn = Some registry ->
  Fill_string registry "app.path" = inr path ->
  Rev1.Build b ctn fs
  = (mkBundle (fst (spf13.ReadInConfig (spf13.AddConfigPath (viper b) path) fs)),
     (Some (fst (spf13.ReadInConfig (spf13.AddConfigPath (viper b) path) fs)),
      snd (spf13.ReadInConfig (spf13.AddConfigPath (viper b) path) fs))).
Proof.
  intros Hreg Hpath. unfold Rev1.Build, Fill_Registry. rewrite Hreg, Hpath.
  now destruct (spf13.ReadInConfig _ fs).
Qed.

(** ** What a failed resolution leaves behind *)

(** The object a resolution returns is the bundle's own. *)
Lemma provideViper_returns_bundle_object
      (b b' : Bundle) (ctx : Context) (flagSet : pflag.FlagSet) (fs : FileSystem)
      (v : spf13.Viper) :
  Rev4.provideViper b ctx flagSet fs = (b', (Some v, None)) ->
  v = viper b' /\ spf13.config (viper b') = spf13.config v.
Proof.
  intros Hrun.
  destruct (assert_string (Value ctx "app.path")) as [path|] eqn:Hpath.
  - destruct (pflag.GetString flagSet "config") as [e|configFile] eqn:Hflag.
    + rewrite (provideViper_flag_error b ctx flagSet fs path e Hpath Hflag) in Hrun.
      discriminate Hrun.
    + rewrite (provideViper_reads b ctx flagSet fs path configFile Hpath Hflag)
        in Hrun.
      unfold readOutcome in Hrun.
      destruct (spf13.ReadInConfig (beforeRead b path configFile) fs)
        as [v' [e|]]; cbn [fst snd] in Hrun; [discriminate Hrun|].
      injection Hrun as <- <-. split; reflexivity.
  - unfold Rev4.provideViper in Hrun. rewrite Hpath in Hrun. discriminate Hrun.
Qed.

(** C7, as the claim states it, fails: a resolution that fails at the file
    read has already registered the search path and the explicit config
    file on the bundle's object. *)
Lemma failed_resolution_keeps_bundle_counterexample :
  ~ (forall (b b' : Bundle) (ctx : Context) (flagSet : pflag.FlagSet)
            (fs : FileSystem) (obj : option spf13.Viper) (err : error),
        Rev4.provideViper b ctx flagSet fs = (b', (obj, Some err)) ->
        b' = b).
Proof.
  intros H.
  specialize (H sampleBundle
                (mkBundle (beforeRead sampleBundle "/app" "/etc/app/missing.yaml"))
                sampleContext (flagSetWith "/etc/app/missing.yaml") sampleFiles
                None
                (Errorf "unable to read config file : '/etc/app/missing.yaml' : "
                        (ConfigReadError "/etc/app/missing.yaml"))
                eq_refl).
  vm_compute in H. discriminate H.
Qed.

(** C7, amended.  A resolution either succeeds, and then the object it
    returns is the bundle's object with the settings of the file loaded,
    or fails, and then it returns no object, the error propagates, and
    nothing has been loaded into the bundle's object.  The bundle itself
    is unchanged only when the path is missing from the context; when the
    flag value cannot be read the search path has been added, and when the
    file read fails the search path and a non-empty flag value stay set on
    the bundle's object. *)
Theorem provideViper_all_or_error
        (b b' : Bundle) (ctx : Context) (flagSet : pflag.FlagSet)
        (fs : FileSystem) (obj : option spf13.Viper) (err : option error) :
  Rev4.provideViper b ctx flagSet fs = (b', (obj, err)) ->
  (err = None ->
   obj = Some (viper b') /\
   exists path configFile file f,
     assert_string (Value ctx "app.path") = Some path /\
     pflag.GetString flagSet "config" = inr configFile /\
     spf13.getConfigFile (beforeRead b path configFile) fs = inr file /\
     Open fs file = Some f /\
     spf13.decode (spf13.configType (viper b)) f = Some (spf13.config (viper b')) /\
     viper b' = spf13.setConfig (beforeRead b path configFile)
                                (spf13.config (viper b'))) /\
  (err <> None ->
   obj = None /\
   spf13.config (viper b') = spf13.config (viper b) /\
   (assert_string (Value ctx "app.path") = None ->
    b' = b /\ err = Some ErrUndefinedAppPath) /\
   (forall path e,
       assert_string (Value ctx "app.path") = Some path ->
       pflag.GetString flagSet "config" = inl e ->
       b' = mkBundle (spf13.AddConfigPath (viper b) path)) /\
   (forall path configFile,
       assert_string (Value ctx "app.path") = Some path ->
       pflag.GetString flagSet "config" = inr configFile ->
       b' = mkBundle (beforeRead b path configFile))).
Proof.
  intros Hrun.
  destruct (assert_string (Value ctx "app.path")) as [path|] eqn:Hpath.
  - destruct (pflag.GetString flagSet "config") as [e|configFile] eqn:Hflag.
    + rewrite (provideViper_flag_error b ctx flagSet fs path e Hpath Hflag) in Hrun.
      injection Hrun as <- <- <-. split; [discriminate|]. intros _.
      repeat split; try reflexivity; try discriminate.
      intros p e' [= <-] _. reflexivity.
    + rewrite (provideViper_reads b ctx flagSet fs path configFile Hpath Hflag)
        in Hrun.
      unfold readOutcome in Hrun.
      destruct (spf13.ReadInConfig (beforeRead b path configFile) fs)
        as [v' [e|]] eqn:Hread; cbn [fst snd] in Hrun;
        injection Hrun as <- <- <-.
      * split; [discriminate|]. intros _.
        rewrite (ReadInConfig_failure _ _ _ _ Hread).
        repeat split; try discriminate.
        -- unfold beforeRead. destruct (0 <? String.length configFile)%nat;
             reflexivity.
        -- intros p c [= <-] [= <-]. reflexivity.
      * split; [|congruence]. intros _. split; [reflexivity|].
        destruct (ReadInConfig_success _ _ _ Hread)
          as (file & f & m & Hget & Hopen & Hdec & ->).
        exists path, configFile, file, f. cbn [viper].
        assert (Htype : spf13.configType (beforeRead b path configFile)
                        = spf13.configType (viper b)).
        { unfold beforeRead. destruct (0 <? String.length configFile)%nat;
            reflexivity. }
        rewrite <- Htype. repeat split; assumption.
  - unfold Rev4.provideViper in Hrun. rewrite Hpath in Hrun.
    injection Hrun as <- <- <-. split; [discriminate|]. intros _.
    repeat split; try reflexivity; discriminate.
Qed.

Lemma provideViper_all_or_error_witness :
  Rev4.provideViper sampleBundle sampleContext
                    (flagSetWith "/etc/app/missing.yaml") sampleFiles
  = (mkBundle (beforeRead sampleBundle "/app" "/etc/app/missing.yaml"),
     (None,
      Some (Errorf "unable to read config file : '/etc/app/missing.yaml' : "
                   (ConfigReadError "/etc/app/missing.yaml")))) /\
  spf13.config (beforeRead sampleBundle "/app" "/etc/app/missing.yaml")
  = spf13.config (viper sampleBundle).
Proof.
  split; [reflexivity|].
  refine (proj1 (proj2 (proj2 (provideViper_all_or_error
            sampleBundle
            (mkBundle (beforeRead sampleBundle "/app" "/etc/app/missing.yaml"))
            sampleContext (flagSetWith "/etc/app/missing.yaml") sampleFiles
            None
            (Some (Errorf "unable to read config file : '/etc/app/missing.yaml' : "
                          (ConfigReadError "/etc/app/missing.yaml")))
            eq_refl) _))).
  discriminate.
Defined.

(** The first three revisions differ: a failed read returns the object
    next to the error. *)
Lemma Rev3_Build_failed_read_returns_object :
  snd (Rev3.Build (Rev3.NewBundle [])
                  (mkContainer None
                     (Some [("app.path", anyString "/app");
                            ("cli.cmd",
                             anyCommand (mkCommand (flagSetWith EmptyString)))]))
                  [])
  = (Some (spf13.AddConfigPath defaultViper "/app"),
     Some (ConfigFileNotFoundError "config" ["/app"])).
Proof. reflexivity. Qed.

(** ** Discovery under the default options *)

Lemma ReadInConfig_default_discovery
      (fs : FileSystem) (path : string) (settings : Settings) :
  Open fs (Join path "config.json") = Some (Encoded "json" settings) ->
  spf13.getConfigFile (spf13.AddConfigPath defaultViper path) fs
  = inr (Join path "config.json") /\
  spf13.ReadInConfig (spf13.AddConfigPath defaultViper path) fs
  = (spf13.setConfig (spf13.AddConfigPath defaultViper path) settings, None).
Proof.
  intros Hfile.
  assert (Hget : spf13.getConfigFile (spf13.AddConfigPath defaultViper path) fs
                 = inr (Join path "config.json")).
  { unfold spf13.getConfigFile, spf13.findConfigFile. cbn.
    change (path ++ "/config.json")%string with (Join path "config.json").
    now rewrite Hfile. }
  split; [exact Hget|].
  unfold spf13.ReadInConfig. rewrite Hget, Hfile. reflexivity.
Qed.

(** C8.  With a string path under "app.path", an empty config flag and
    the default options, the configuration stage adds the path as the one
    search path, goes for the file "config.json" on that path and, the
    file being there and holding JSON, succeeds with its settings
    loaded. *)
Theorem provideViper_discovers_config_json
        (ctx : Context) (flagSet : pflag.FlagSet) (fs : FileSystem)
        (path : string) (settings : Settings) :
  assert_string (Value ctx "app.path") = Some path ->
  pflag.GetString flagSet "config" = inr EmptyString ->
  Open fs (Join path "config.json") = Some (Encoded "json" settings) ->
  let v := spf13.setConfig (spf13.AddConfigPath defaultViper path) settings in
  Rev4.provideViper (Rev4.NewBundle []) ctx flagSet fs
  = (mkBundle v, (Some v, None)) /\
  spf13.configPaths v = [path] /\
  spf13.getConfigFile (spf13.AddConfigPath defaultViper path) fs
  = inr (Join path "config.json") /\
  spf13.config v = settings.
Proof.
  intros Hpath Hflag Hfile. cbv zeta.
  destruct (ReadInConfig_default_discovery fs path settings Hfile)
    as [Hget Hread].
  split; [|repeat split; assumption].
  rewrite (provideViper_reads _ ctx flagSet fs path EmptyString Hpath Hflag).
  change (beforeRead (Rev4.NewBundle []) path EmptyString)
    with (spf13.AddConfigPath defaultViper path).
  unfold readOutcome. rewrite Hread. reflexivity.
Qed.

Lemma provideViper_discovers_config_json_witness :
  assert_string (Value sampleContext "app.path") = Some "/app" /\
  pflag.GetString (flagSetWith EmptyString) "config" = inr EmptyString /\
  Open sampleFiles (Join "/app" "config.json")
  = Some (Encoded "json" [("source", "discovered")]) /\
  Rev4.provideViper (Rev4.NewBundle []) sampleContext
                    (flagSetWith EmptyString) sampleFiles
  = (mkBundle (spf13.setConfig (spf13.AddConfigPath defaultViper "/app")
                               [("source", "discovered")]),
     (Some (spf13.setConfig (spf13.AddConfigPath defaultViper "/app")
                            [("source", "discovered")]),
      None)).
Proof.
  split; [reflexivity|]. split; [reflexivity|]. split; [reflexivity|].
  exact (proj1 (provideViper_discovers_config_json
                  sampleContext (flagSetWith EmptyString) sampleFiles
                  "/app" [("source", "discovered")]
                  eq_refl eq_refl eq_refl)).
Defined.

(** Without the file, discovery fails and so does the resolution. *)
Lemma provideViper_no_config_json
      (ctx : Context) (flagSet : pflag.FlagSet) (fs : FileSystem) (path : string) :
  assert_string (Value ctx "app.path") = Some path ->
  pflag.GetString flagSet "config" = inr EmptyString ->
  Open fs (Join path "config.json") = None ->
  snd (Rev4.provideViper (Rev4.NewBundle []) ctx flagSet fs)
  = (None,
     Some (Errorf "unable to read config file : '' : "
                  (ConfigFileNotFoundError "config" [path]))).
Proof.
  intros Hpath Hflag Hfile.
  rewrite (provideViper_reads _ ctx flagSet fs path EmptyString Hpath Hflag).
  change (beforeRead (Rev4.NewBundle []) path EmptyString)
    with (spf13.AddConfigPath defaultViper path).
  unfold readOutcome, spf13.ReadInConfig, spf13.getConfigFile,
    spf13.findConfigFile.
  cbn. change (path ++ "/config.json")%string with (Join path "config.json").
  now rewrite Hfile.
Qed.

(** The first revision, which knows no flag, discovers the same file. *)
Lemma Rev1_Build_discovers_config_json
      (ctn : Container) (registry : Registry) (fs : FileSystem)
      (path : string) (settings : Settings) :
  DefRegistry ctn = Some registry ->
  Fill_string registry "app.path" = inr path ->
  Open fs (Join path "config.json") = Some (Encoded "json" settings) ->
  Rev1.Build Rev1.NewBundle ctn fs
  = (mkBundle (spf13.setConfig (spf13.AddConfigPath defaultViper path) settings),
     (Some (spf13.setConfig (spf13.AddConfigPath defaultViper path) settings),
      None)).
Proof.
  intros Hreg Hpath Hfile.
  rewrite (Rev1_Build_read_error _ ctn registry fs path Hreg Hpath).
  change (viper Rev1.NewBundle) with defaultViper.
  destruct (ReadInConfig_default_discovery fs path settings Hfile)
    as [_ Hread].
  rewrite Hread. reflexivity.
Qed.

(** ** Environment variables under the default options *)

Lemma envVarName_default (v : spf13.Viper) (key : string) :
  spf13.envPrefix v = "ENV" ->
  spf13.envKeyReplacer v = Some (strings.NewReplacer [(".", "_")]) ->
  spf13.envVarName v key
  = ("ENV_" ++ dotsToUnderscores (strings.ToUpper key))%string.
Proof.
  intros Hprefix Hrepl. unfold spf13.envVarName. rewrite Hprefix, Hrepl.
  cbn [String.eqb Ascii.eqb Bool.eqb].
  rewrite Replace_dots.
  change ("ENV" ++ "_" ++ key)%string with ("ENV_" ++ key)%string.
  rewrite ToUpper_app. reflexivity.
Qed.

(** The configuration stage leaves the environment settings alone. *)
Lemma provideViper_keeps_env_settings
      (b b' : Bundle) (ctx : Context) (flagSet : pflag.FlagSet) (fs : FileSystem)
      (r : result) :
  Rev4.provideViper b ctx flagSet fs = (b', r) ->
  spf13.automaticEnvApplied (viper b') = spf13.automaticEnvApplied (viper b) /\
  spf13.envPrefix (viper b') = spf13.envPrefix (viper b) /\
  spf13.envKeyReplacer (viper b') = spf13.envKeyReplacer (viper b).
Proof.
  intros Hrun.
  destruct (assert_string (Value ctx "app.path")) as [path|] eqn:Hpath.
  - destruct (pflag.GetString flagSet "config") as [e|configFile] eqn:Hflag.
    + rewrite (provideViper_flag_error b ctx flagSet fs path e Hpath Hflag) in Hrun.
      injection Hrun as <- _. repeat split.
    + rewrite (provideViper_reads b ctx flagSet fs path configFile Hpath Hflag)
        in Hrun.
      injection Hrun as <- _. cbn [viper].
      destruct (ReadInConfig_keeps_settings (beforeRead b path configFile) fs)
        as (Henv & Hprefix & Hrepl & _).
      cbv zeta in Henv, Hprefix, Hrepl. rewrite Henv, Hprefix, Hrepl.
      unfold beforeRead. destruct (0 <? String.length configFile)%nat;
        repeat split.
  - unfold Rev4.provideViper in Hrun. rewrite Hpath in Hrun.
    injection Hrun as <- _. repeat split.
Qed.

(** C9.  Under the default options the environment variable that stands
    for a key is "ENV_" followed by the upper-cased key with every "."
    replaced by "_" ("ENV_FOO_BAR" for "foo.bar", "ENV_DB_HOST" for
    "db.host"), and a value of that variable is what a lookup of the key
    returns, on the fresh bundle (the variable supplies the key) and on
    the object of a successful resolution whatever the file holds (the
    variable overrides the file). *)
Theorem default_options_env_variable (key : string) (env : Settings) :
  spf13.envVarName (viper (Rev4.NewBundle [])) key
  = ("ENV_" ++ dotsToUnderscores (strings.ToUpper key))%string /\
  spf13.envVarName (viper (Rev4.NewBundle [])) "foo.bar" = "ENV_FOO_BAR" /\
  spf13.envVarName (viper (Rev4.NewBundle [])) "db.host" = "ENV_DB_HOST" /\
  (forall value,
      lookup env ("ENV_" ++ dotsToUnderscores (strings.ToUpper key)) = Some value ->
      spf13.Get (viper (Rev4.NewBundle [])) env key = Some value) /\
  (forall ctx flagSet fs b' v value,
      Rev4.provideViper (Rev4.NewBundle []) ctx flagSet fs = (b', (Some v, None)) ->
      lookup env ("ENV_" ++ dotsToUnderscores (strings.ToUpper key)) = Some value ->
      spf13.Get v env key = Some value).
Proof.
  split; [now apply envVarName_default|].
  split; [reflexivity|]. split; [reflexivity|]. split.
  - intros value Henv. unfold spf13.Get.
    rewrite (envVarName_default (viper (Rev4.NewBundle [])) key eq_refl eq_refl).
    cbn [viper spf13.automaticEnvApplied Rev4.NewBundle]. now rewrite Henv.
  - intros ctx flagSet fs b' v value Hrun Henv.
    destruct (provideViper_keeps_env_settings _ _ _ _ _ _ Hrun)
      as (Hauto & Hprefix & Hrepl).
    destruct (provideViper_returns_bundle_object _ _ _ _ _ _ Hrun) as [-> _].
    unfold spf13.Get. rewrite Hauto.
    rewrite (envVarName_default (viper b') key); [|now rewrite Hprefix|now rewrite Hrepl].
    change (spf13.automaticEnvApplied (viper (Rev4.NewBundle []))) with true.
    cbv iota. now rewrite Henv.
Qed.

Lemma default_options_env_variable_witness :
  lookup [("HOME", "/root"); ("ENV_FOO_BAR", "from-env")]
         ("ENV_" ++ dotsToUnderscores (strings.ToUpper "foo.bar"))
  = Some "from-env" /\
  Rev4.provideViper (Rev4.NewBundle []) sampleContext (flagSetWith EmptyString)
                    [("/app/config.json", Encoded "json" [("foo.bar", "from-file")])]
  = (mkBundle (spf13.setConfig (spf13.AddConfigPath defaultViper "/app")
                               [("foo.bar", "from-file")]),
     (Some (spf13.setConfig (spf13.AddConfigPath defaultViper "/app")
                            [("foo.bar", "from-file")]),
      None)) /\
  spf13.Get (spf13.setConfig (spf13.AddConfigPath defaultViper "/app")
                             [("foo.bar", "from-file")])
            [("HOME", "/root"); ("ENV_FOO_BAR", "from-env")] "foo.bar"
  = Some "from-env".
Proof.
  split; [reflexivity|]. split; [reflexivity|].
  exact (proj2 (proj2 (proj2 (proj2
           (default_options_env_variable
              "foo.bar" [("HOME", "/root"); ("ENV_FOO_BAR", "from-env")]))))
           sampleContext (flagSetWith EmptyString)
           [("/app/config.json", Encoded "json" [("foo.bar", "from-file")])]
           _ _ "from-env" eq_refl eq_refl).
Defined.

(* ================================================================== *)
(** * Further properties of the four revisions *)

(** ** Shapes of library errors and of the stages *)

Lemma GetString_error_kind (f : pflag.FlagSet) (n : string) (e : error) :
  pflag.GetString f n = inl e -> exists text, e = FlagError text.
Proof.
  unfold pflag.GetString.
  destruct (pflag.Lookup f n) as [fl|]; [destruct (pflag.Val fl)|];
    intros [= <-]; eauto.
Qed.

Lemma ReadInConfig_error_kind (v : spf13.Viper) (fs : FileSystem) (e : error) :
  snd (spf13.ReadInConfig v fs) = Some e ->
  (exists name locations, e = ConfigFileNotFoundError name locations) \/
  (exists file, e = ConfigReadError file) \/
  e = ConfigParseError.
Proof.
  unfold spf13.ReadInConfig.
  destruct (spf13.getConfigFile v fs) as [e0|file] eqn:Hget.
  - unfold spf13.getConfigFile in Hget.
    destruct (negb _); [discriminate|].
    destruct (spf13.findConfigFile v fs); [discriminate|].
    injection Hget as <-. cbn. intros [= <-]. left. eauto.
  - destruct (Open fs file) as [f|].
    + destruct (spf13.decode _ f); cbn; [discriminate|].
      intros [= <-]. right. right. reflexivity.
    + cbn. intros [= <-]. right. left. eauto.
Qed.

Lemma library_error_is_no_sentinel (e : error) (text : string) :
  (exists t, e = FlagError t) \/
  (exists name locations, e = ConfigFileNotFoundError name locations) \/
  (exists file, e = ConfigReadError file) \/
  e = ConfigParseError ->
  Is_chain e (errors_New text) = false.
Proof.
  intros [[t ->]|[(n & l & ->)|[[f ->]| ->]]]; reflexivity.
Qed.

(** The bundle that the configuration stage leaves behind. *)
Lemma provideViper_bundle_after
      (b : Bundle) (ctx : Context) (flagSet : pflag.FlagSet) (fs : FileSystem) :
  fst (Rev4.provideViper b ctx flagSet fs)
  = match assert_string (Value ctx "app.path") with
    | None => b
    | Some path =>
        match pflag.GetString flagSet "config" with
        | inl _ => mkBundle (spf13.AddConfigPath (viper b) path)
        | inr configFile =>
            mkBundle (fst (spf13.ReadInConfig (beforeRead b path configFile) fs))
        end
    end.
Proof.
  destruct (assert_string (Value ctx "app.path")) as [path|] eqn:Hpath.
  - destruct (pflag.GetString flagSet "config") as [e|configFile] eqn:Hflag.
    + now rewrite (provideViper_flag_error b ctx flagSet fs path e Hpath Hflag).
    + now rewrite (provideViper_reads b ctx flagSet fs path configFile Hpath Hflag).
  - unfold Rev4.provideViper. now rewrite Hpath.
Qed.

(** The build closure of the third revision once path and command are
    found. *)
Lemma Rev3_Build_with_command
      (b : Bundle) (ctn : Container) (ctx : Context) (fs : FileSystem)
      (path : string) (cmd : Command) :
  DefContext ctn = Some ctx ->
  assert_string (Value ctx "app.path") = Some path ->
  assert_Command (Value ctx "cli.cmd") = Some cmd ->
  Rev3.Build b ctn fs
  = match pflag.GetString (Flags cmd) "config" with
    | inl e => (mkBundle (spf13.AddConfigPath (viper b) path), (None, Some e))
    | inr configFile =>
        (mkBundle (fst (spf13.ReadInConfig (beforeRead b path configFile) fs)),
         (Some (fst (spf13.ReadInConfig (beforeRead b path configFile) fs)),
          snd (spf13.ReadInConfig (beforeRead b path configFile) fs)))
    end.
Proof.
  intros Hctx Hpath Hcmd. unfold Rev3.Build, Fill_Context, beforeRead.
  rewrite Hctx, Hpath, Hcmd.
  destruct (pflag.GetString (Flags cmd) "config") as [e|configFile];
    [reflexivity|].
  cbn [viper]. now destruct (spf13.ReadInConfig _ fs).
Qed.

Lemma Rev2_Build_with_command
      (b : Bundle) (ctn : Container) (registry : Registry) (fs : FileSystem)
      (path : string) (cmd : Command) :
  DefRegistry ctn = Some registry ->
  assert_string (Value registry "app.path") = Some path ->
  assert_Command (Value registry "cli.cmd") = Some cmd ->
  Rev2.Build b ctn fs
  = match pflag.GetString (Flags cmd) "config" with
    | inl e => (mkBundle (spf13.AddConfigPath (viper b) path), (None, Some e))
    | inr configFile =>
        (mkBundle (fst (spf13.ReadInConfig (beforeRead b path configFile) fs)),
         (Some (fst (spf13.ReadInConfig (beforeRead b path configFile) fs)),
          snd (spf13.ReadInConfig (beforeRead b path configFile) fs)))
    end.
Proof.
  intros Hreg Hpath Hcmd.
  unfold Rev2.Build, Fill_Registry, Fill_string, Fill_Command, beforeRead.
  rewrite Hreg, Hpath, Hcmd.
  destruct (pflag.GetString (Flags cmd) "config") as [e|configFile];
    [reflexivity|].
  cbn [viper]. now destruct (spf13.ReadInConfig _ fs).
Qed.

(** ** The context-based build closure (third revision) *)

(** X1.  In the third revision a context that supplies the path but no
    cobra command under "cli.cmd" (the key is absent or holds a value of
    another type) makes the build closure return [ErrUndefinedCliCmd] and
    no object, whatever the file system holds; the path has by then been
    added to the bundle's search paths. *)
Theorem Rev3_Build_undefined_cli_cmd
        (b : Bundle) (ctn : Container) (ctx : Context) (fs : FileSystem)
        (path : string) :
  DefContext ctn = Some ctx ->
  assert_string (Value ctx "app.path") = Some path ->
  (forall cmd, Value ctx "cli.cmd" <> Some (anyCommand cmd)) ->
  Rev3.Build b ctn fs
  = (mkBundle (spf13.AddConfigPath (viper b) path),
     (None, Some ErrUndefinedCliCmd)) /\
  spf13.configPaths (viper (fst (Rev3.Build b ctn fs)))
  = spf13.configPaths (viper b) ++ [path].
Proof.
  intros Hctx Hpath Hcmd.
  assert (Hrun : Rev3.Build b ctn fs
                 = (mkBundle (spf13.AddConfigPath (viper b) path),
                    (None, Some ErrUndefinedCliCmd))).
  { unfold Rev3.Build, Fill_Context. rewrite Hctx, Hpath.
    destruct (Value ctx "cli.cmd") as [[s|cmd|t]|]; cbn; try reflexivity.
    now destruct (Hcmd cmd). }
  split; [exact Hrun|]. now rewrite Hrun.
Qed.

Lemma Rev3_Build_undefined_cli_cmd_witness :
  DefContext (contextContainer sampleContext) = Some sampleContext /\
  assert_string (Value sampleContext "app.path") = Some "/app" /\
  (forall cmd, Value sampleContext "cli.cmd" <> Some (anyCommand cmd)) /\
  Rev3.Build (Rev3.NewBundle []) (contextContainer sampleContext) sampleFiles
  = (mkBundle (spf13.AddConfigPath (viper (Rev3.NewBundle [])) "/app"),
     (None, Some ErrUndefinedCliCmd)).
Proof.
  split; [reflexivity|]. split; [reflexivity|].
  split; [intros cmd; cbn; discriminate|].
  refine (proj1 (Rev3_Build_undefined_cli_cmd
                   (Rev3.NewBundle []) (contextContainer sampleContext)
                   sampleContext sampleFiles "/app" eq_refl eq_refl _)).
  intros cmd. cbn. discriminate.
Defined.

(** X2.  The two sentinels of the third revision tell the caller which
    key is missing: the error of the build closure is (or wraps)
    [ErrUndefinedAppPath] exactly when the context has no string under
    "app.path", and [ErrUndefinedCliCmd] exactly when it has the path but
    no command under "cli.cmd"; no flag or file error is mistaken for
    either. *)
Theorem Rev3_Build_sentinels
        (b : Bundle) (ctn : Container) (ctx : Context) (fs : FileSystem) :
  DefContext ctn = Some ctx ->
  (errors_Is (snd (snd (Rev3.Build b ctn fs))) ErrUndefinedAppPath = true
   <-> assert_string (Value ctx "app.path") = None) /\
  (errors_Is (snd (snd (Rev3.Build b ctn fs))) ErrUndefinedCliCmd = true
   <-> (assert_string (Value ctx "app.path") <> None /\
        assert_Command (Value ctx "cli.cmd") = None)).
Proof.
  intros Hctx.
  destruct (assert_string (Value ctx "app.path")) as [path|] eqn:Hpath.
  - destruct (assert_Command (Value ctx "cli.cmd")) as [cmd|] eqn:Hcmd.
    + rewrite (Rev3_Build_with_command b ctn ctx fs path cmd Hctx Hpath Hcmd).
      assert (Hno : forall text,
                 errors_Is
                   (snd (snd
                      match pflag.GetString (Flags cmd) "config" with
                      | inl e =>
                          (mkBundle (spf13.AddConfigPath (viper b) path),
                           (None, Some e))
                      | inr configFile =>
                          (mkBundle (fst (spf13.ReadInConfig
                                            (beforeRead b path configFile) fs)),
                           (Some (fst (spf13.ReadInConfig
                                         (beforeRead b path configFile) fs)),
                            snd (spf13.ReadInConfig
                                   (beforeRead b path configFile) fs)))
                      end)) (errors_New text) = false).
      { intros text.
        destruct (pflag.GetString (Flags cmd) "config") as [e|configFile] eqn:Hflag;
          cbn [snd errors_Is].
        - apply library_error_is_no_sentinel. left.
          exact (GetString_error_kind _ _ _ Hflag).
        - destruct (snd (spf13.ReadInConfig (beforeRead b path configFile) fs))
            as [e|] eqn:Hread; [|reflexivity].
          apply library_error_is_no_sentinel. right.
          exact (ReadInConfig_error_kind _ _ _ Hread). }
      unfold ErrUndefinedAppPath, ErrUndefinedCliCmd. rewrite !Hno.
      split.
      * split; discriminate.
      * split; [discriminate | intros [_ H]; discriminate H].
    + unfold Rev3.Build, Fill_Context. rewrite Hctx, Hpath, Hcmd.
      cbn [snd].
      change (errors_Is (Some ErrUndefinedCliCmd) ErrUndefinedAppPath) with false.
      change (errors_Is (Some ErrUndefinedCliCmd) ErrUndefinedCliCmd) with true.
      split.
      * split; discriminate.
      * split; [intros _; split; [discriminate | reflexivity] | reflexivity].
  - unfold Rev3.Build, Fill_Context. rewrite Hctx, Hpath.
    cbn [snd].
    change (errors_Is (Some ErrUndefinedAppPath) ErrUndefinedAppPath) with true.
    change (errors_Is (Some ErrUndefinedAppPath) ErrUndefinedCliCmd) with false.
    split.
    + split; reflexivity.
    + split; [discriminate | intros [H _]; now destruct H].
Qed.

Lemma Rev3_Build_sentinels_witness :
  DefContext (contextContainer sampleContext) = Some sampleContext /\
  errors_Is (snd (snd (Rev3.Build sampleBundle (contextContainer sampleContext)
                                  sampleFiles)))
            ErrUndefinedCliCmd = true.
Proof.
  split; [reflexivity|].
  refine (proj2 (proj2 (Rev3_Build_sentinels
                          sampleBundle (contextContainer sampleContext)
                          sampleContext sampleFiles eq_refl)) _).
  split; [discriminate | reflexivity].
Defined.

(** ** The two stages together (fourth revision) *)

(** X3.  The flag-set stage never hands a help request on as an error,
    whatever the parser does, and it returns no error exactly when the
    parser returned none or reported a help request. *)
Theorem provideFlagSet_never_reports_help
        (Parse : pflag.FlagSet -> list string -> pflag.FlagSet * option error)
        (args : list string) :
  errors_Is (snd (Rev4.provideFlagSet Parse args)) pflag.ErrHelp = false /\
  (snd (Rev4.provideFlagSet Parse args) = None
   <-> (snd (Parse Rev4.declaredFlagSet args) = None \/
        errors_Is (snd (Parse Rev4.declaredFlagSet args)) pflag.ErrHelp = true)).
Proof.
  unfold Rev4.provideFlagSet.
  destruct (Parse Rev4.declaredFlagSet args) as [flagSet [err|]]; cbn [snd].
  - destruct (errors_Is (Some err) pflag.ErrHelp) eqn:Hhelp; cbn [snd].
    + split; [reflexivity|]. split; [intros _; now right | reflexivity].
    + split; [exact Hhelp|]. split; [discriminate|].
      intros [H|H]; discriminate H.
  - split; [reflexivity|]. split; [intros _; now left | reflexivity].
Qed.

(** X4.  A help request does not stop the resolution: when the parser
    returns no error or reports a help request, the resolution is the
    configuration stage run on the flag set the parser returned. *)
Theorem resolve_help_request_continues
        (Parse : pflag.FlagSet -> list string -> pflag.FlagSet * option error)
        (b : Bundle) (ctx : Context) (args : list string) (fs : FileSystem) :
  snd (Parse Rev4.declaredFlagSet args) = None \/
  errors_Is (snd (Parse Rev4.declaredFlagSet args)) pflag.ErrHelp = true ->
  Rev4.resolve Parse b ctx args fs
  = Rev4.provideViper b ctx (fst (Parse Rev4.declaredFlagSet args)) fs.
Proof.
  intros Hparse. unfold Rev4.resolve, Rev4.provideFlagSet.
  destruct (Parse Rev4.declaredFlagSet args) as [flagSet [err|]];
    cbn [fst snd] in *.
  - destruct Hparse as [H|H]; [discriminate H|]. now rewrite H.
  - reflexivity.
Qed.

Lemma resolve_help_request_continues_witness :
  (snd (parsedHelp Rev4.declaredFlagSet ["app"; "--help"]) = None \/
   errors_Is (snd (parsedHelp Rev4.declaredFlagSet ["app"; "--help"]))
             pflag.ErrHelp = true) /\
  Rev4.resolve parsedHelp (Rev4.NewBundle []) sampleContext ["app"; "--help"]
               sampleFiles
  = Rev4.provideViper (Rev4.NewBundle []) sampleContext
                      (fst (parsedHelp Rev4.declaredFlagSet ["app"; "--help"]))
                      sampleFiles.
Proof.
  split; [right; reflexivity|].
  apply (resolve_help_request_continues
           parsedHelp (Rev4.NewBundle []) sampleContext ["app"; "--help"]
           sampleFiles).
  right. reflexivity.
Defined.

(** X5.  Every error of a resolution is of one of four kinds, and none
    comes with an object: the parser's error (not a help request), with
    the bundle untouched; the sentinel for the missing path, with the
    bundle untouched; the flag library's error wrapped as "unable to get
    config flag value"; or the error of "read config" wrapped as "unable
    to read config file" with the flag value, nothing being loaded. *)
Theorem resolve_error_kinds
        (Parse : pflag.FlagSet -> list string -> pflag.FlagSet * option error)
        (b b' : Bundle) (ctx : Context) (args : list string) (fs : FileSystem)
        (obj : option spf13.Viper) (err : error) :
  Rev4.resolve Parse b ctx args fs = (b', (obj, Some err)) ->
  obj = None /\
  ((snd (Parse Rev4.declaredFlagSet args) = Some err /\
    errors_Is (Some err) pflag.ErrHelp = false /\ b' = b) \/
   (err = ErrUndefinedAppPath /\ b' = b) \/
   (exists e,
       err = Errorf "unable to get config flag value : " e /\
       pflag.GetString (fst (Parse Rev4.declaredFlagSet args)) "config" = inl e) \/
   (exists configFile e,
       err = Errorf ("unable to read config file : '" ++ configFile ++ "' : ") e /\
       pflag.GetString (fst (Parse Rev4.declaredFlagSet args)) "config"
       = inr configFile /\
       spf13.config (viper b') = spf13.config (viper b))).
Proof.
  unfold Rev4.resolve, Rev4.provideFlagSet.
  destruct (Parse Rev4.declaredFlagSet args) as [flagSet perr]; cbn [fst snd].
  assert (Hstage :
            Rev4.provideViper b ctx flagSet fs = (b', (obj, Some err)) ->
            obj = None /\
            ((err = ErrUndefinedAppPath /\ b' = b) \/
             (exists e, err = Errorf "unable to get config flag value : " e /\
                        pflag.GetString flagSet "config" = inl e) \/
             (exists configFile e,
                 err = Errorf ("unable to read config file : '" ++ configFile
                               ++ "' : ") e /\
                 pflag.GetString flagSet "config" = inr configFile /\
                 spf13.config (viper b') = spf13.config (viper b)))).
  { intros Hrun.
    destruct (assert_string (Value ctx "app.path")) as [path|] eqn:Hpath.
    - destruct (pflag.GetString flagSet "config") as [e|configFile] eqn:Hflag.
      + rewrite (provideViper_flag_error b ctx flagSet fs path e Hpath Hflag)
          in Hrun.
        injection Hrun as <- <- <-. split; [reflexivity|].
        right. left. now exists e.
      + rewrite (provideViper_reads b ctx flagSet fs path configFile Hpath Hflag)
          in Hrun.
        unfold readOutcome in Hrun.
        destruct (spf13.ReadInConfig (beforeRead b path configFile) fs)
          as [v' [e|]] eqn:Hread; cbn [fst snd] in Hrun;
          [|discriminate Hrun].
        injection Hrun as <- <- <-. split; [reflexivity|].
        right. right. exists configFile, e.
        split; [reflexivity|]. split; [reflexivity|].
        rewrite (ReadInConfig_failure _ _ _ _ Hread). cbn [viper].
        unfold beforeRead. now destruct (0 <? String.length configFile)%nat.
    - unfold Rev4.provideViper in Hrun. rewrite Hpath in Hrun.
      injection Hrun as <- <- <-. split; [reflexivity|]. left. now split. }
  destruct perr as [pe|].
  - destruct (errors_Is (Some pe) pflag.ErrHelp) eqn:Hhelp.
    + intros Hrun. destruct (Hstage Hrun) as [Hobj H].
      split; [exact Hobj | right; exact H].
    + intros [= <- <- <-]. split; [reflexivity|]. left. now repeat split.
  - intros Hrun. destruct (Hstage Hrun) as [Hobj H].
    split; [exact Hobj | right; exact H].
Qed.

Lemma resolve_error_kinds_witness :
  Rev4.resolve parsedUnknownFlag (Rev4.NewBundle []) sampleContext
               ["app"; "--verbose"] sampleFiles
  = (Rev4.NewBundle [], (None, Some (FlagError "unknown flag: --verbose"))) /\
  ((snd (parsedUnknownFlag Rev4.declaredFlagSet ["app"; "--verbose"])
    = Some (FlagError "unknown flag: --verbose") /\
    errors_Is (Some (FlagError "unknown flag: --verbose")) pflag.ErrHelp = false /\
    Rev4.NewBundle [] = Rev4.NewBundle []) \/
   (FlagError "unknown flag: --verbose" = ErrUndefinedAppPath /\
    Rev4.NewBundle [] = Rev4.NewBundle []) \/
   (exists e,
       FlagError "unknown flag: --verbose"
       = Errorf "unable to get config flag value : " e /\
       pflag.GetString
         (fst (parsedUnknownFlag Rev4.declaredFlagSet ["app"; "--verbose"]))
         "config" = inl e) \/
   (exists configFile e,
       FlagError "unknown flag: --verbose"
       = Errorf ("unable to read config file : '" ++ configFile ++ "' : ") e /\
       pflag.GetString
         (fst (parsedUnknownFlag Rev4.declaredFlagSet ["app"; "--verbose"]))
         "config" = inr configFile /\
       spf13.config (viper (Rev4.NewBundle []))
       = spf13.config (viper (Rev4.NewBundle [])))).
Proof.
  split; [reflexivity|].
  exact (proj2 (resolve_error_kinds
                  parsedUnknownFlag (Rev4.NewBundle []) (Rev4.NewBundle [])
                  sampleContext ["app"; "--verbose"] sampleFiles None
                  (FlagError "unknown flag: --verbose") eq_refl)).
Defined.

(** ** One revision against another *)

(** X6.  With an empty config flag the second revision does what the
    first did: given a registry that holds the cobra command and a flag
    whose value is empty, both build closures return the same object and
    error and leave the same bundle, also when the path is missing. *)
Theorem Rev2_Build_empty_flag_is_Rev1
        (b : Bundle) (ctn : Container) (registry : Registry) (fs : FileSystem)
        (cmd : Command) :
  DefRegistry ctn = Some registry ->
  assert_Command (Value registry "cli.cmd") = Some cmd ->
  pflag.GetString (Flags cmd) "config" = inr EmptyString ->
  Rev2.Build b ctn fs = Rev1.Build b ctn fs.
Proof.
  intros Hreg Hcmd Hflag.
  unfold Rev2.Build, Rev1.Build, Fill_Registry, Fill_string, Fill_Command.
  rewrite Hreg.
  destruct (assert_string (Value registry "app.path")) as [path|];
    [|reflexivity].
  rewrite Hcmd, Hflag. reflexivity.
Qed.

Lemma Rev2_Build_empty_flag_is_Rev1_witness :
  DefRegistry (registryContainer (sampleStore EmptyString))
  = Some (sampleStore EmptyString) /\
  assert_Command (Value (sampleStore EmptyString) "cli.cmd")
  = Some (sampleCommand EmptyString) /\
  pflag.GetString (Flags (sampleCommand EmptyString)) "config" = inr EmptyString /\
  Rev2.Build Rev2.NewBundle (registryContainer (sampleStore EmptyString)) sampleFiles
  = Rev1.Build Rev2.NewBundle (registryContainer (sampleStore EmptyString))
               sampleFiles.
Proof.
  split; [reflexivity|]. split; [reflexivity|]. split; [reflexivity|].
  exact (Rev2_Build_empty_flag_is_Rev1
           Rev2.NewBundle (registryContainer (sampleStore EmptyString))
           (sampleStore EmptyString) sampleFiles (sampleCommand EmptyString)
           eq_refl eq_refl eq_refl).
Defined.

(** X7.  Moving from the registry to the context changed nothing for an
    application that supplies both values: when the same bindings hold a
    string path and a cobra command, the build closure of the second
    revision on the registry and that of the third on the context agree
    on bundle, object and error. *)
Theorem Rev2_Build_agrees_with_Rev3
        (b : Bundle) (ctn2 ctn3 : Container) (store : list (string * any))
        (fs : FileSystem) (path : string) (cmd : Command) :
  DefRegistry ctn2 = Some store ->
  DefContext ctn3 = Some store ->
  assert_string (Value store "app.path") = Some path ->
  assert_Command (Value store "cli.cmd") = Some cmd ->
  Rev2.Build b ctn2 fs = Rev3.Build b ctn3 fs.
Proof.
  intros Hreg Hctx Hpath Hcmd.
  rewrite (Rev2_Build_with_command b ctn2 store fs path cmd Hreg Hpath Hcmd).
  now rewrite (Rev3_Build_with_command b ctn3 store fs path cmd Hctx Hpath Hcmd).
Qed.

Lemma Rev2_Build_agrees_with_Rev3_witness :
  DefRegistry (registryContainer (sampleStore "/etc/app/custom.yaml"))
  = Some (sampleStore "/etc/app/custom.yaml") /\
  DefContext (contextContainer (sampleStore "/etc/app/custom.yaml"))
  = Some (sampleStore "/etc/app/custom.yaml") /\
  assert_string (Value (sampleStore "/etc/app/custom.yaml") "app.path")
  = Some "/app" /\
  assert_Command (Value (sampleStore "/etc/app/custom.yaml") "cli.cmd")
  = Some (sampleCommand "/etc/app/custom.yaml") /\
  Rev2.Build sampleBundle
             (registryContainer (sampleStore "/etc/app/custom.yaml")) sampleFiles
  = Rev3.Build sampleBundle
               (contextContainer (sampleStore "/etc/app/custom.yaml")) sampleFiles.
Proof.
  split; [reflexivity|]. split; [reflexivity|]. split; [reflexivity|].
  split; [reflexivity|].
  exact (Rev2_Build_agrees_with_Rev3
           sampleBundle
           (registryContainer (sampleStore "/etc/app/custom.yaml"))
           (contextContainer (sampleStore "/etc/app/custom.yaml"))
           (sampleStore "/etc/app/custom.yaml") sampleFiles "/app"
           (sampleCommand "/etc/app/custom.yaml")
           eq_refl eq_refl eq_refl eq_refl).
Defined.

(** X8.  The fourth revision against the third, on a context that holds
    path and command: both leave the same bundle behind and succeed on
    the same runs with the same object; they differ on failure, where the
    third revision returns the library's error as it is and the fourth
    returns that error wrapped, without an object. *)
Theorem Rev3_Build_agrees_with_provideViper
        (b : Bundle) (ctn : Container) (ctx : Context) (fs : FileSystem)
        (path : string) (cmd : Command) :
  DefContext ctn = Some ctx ->
  assert_string (Value ctx "app.path") = Some path ->
  assert_Command (Value ctx "cli.cmd") = Some cmd ->
  fst (Rev3.Build b ctn fs) = fst (Rev4.provideViper b ctx (Flags cmd) fs) /\
  (snd (snd (Rev3.Build b ctn fs)) = None
   <-> snd (snd (Rev4.provideViper b ctx (Flags cmd) fs)) = None) /\
  (snd (snd (Rev4.provideViper b ctx (Flags cmd) fs)) = None ->
   snd (Rev3.Build b ctn fs) = snd (Rev4.provideViper b ctx (Flags cmd) fs)) /\
  (forall e,
      snd (snd (Rev3.Build b ctn fs)) = Some e ->
      exists text,
        snd (Rev4.provideViper b ctx (Flags cmd) fs)
        = (None, Some (Errorf text e))).
Proof.
  intros Hctx Hpath Hcmd.
  rewrite (Rev3_Build_with_command b ctn ctx fs path cmd Hctx Hpath Hcmd).
  destruct (pflag.GetString (Flags cmd) "config") as [e|configFile] eqn:Hflag.
  - rewrite (provideViper_flag_error b ctx (Flags cmd) fs path e Hpath Hflag).
    cbn [fst snd]. split; [reflexivity|]. split; [split; discriminate|].
    split; [discriminate|]. intros e' [= <-]. eauto.
  - rewrite (provideViper_reads b ctx (Flags cmd) fs path configFile Hpath Hflag).
    unfold readOutcome. cbn [fst snd].
    destruct (snd (spf13.ReadInConfig (beforeRead b path configFile) fs))
      as [e|]; cbn [fst snd].
    + split; [reflexivity|]. split; [split; discriminate|].
      split; [discriminate|]. intros e' [= <-]. eauto.
    + split; [reflexivity|]. split; [split; reflexivity|].
      split; [reflexivity|]. discriminate.
Qed.

Lemma Rev3_Build_agrees_with_provideViper_witness :
  DefContext (contextContainer (sampleStore "/etc/app/missing.yaml"))
  = Some (sampleStore "/etc/app/missing.yaml") /\
  assert_string (Value (sampleStore "/etc/app/missing.yaml") "app.path")
  = Some "/app" /\
  assert_Command (Value (sampleStore "/etc/app/missing.yaml") "cli.cmd")
  = Some (sampleCommand "/etc/app/missing.yaml") /\
  fst (Rev3.Build sampleBundle
                  (contextContainer (sampleStore "/etc/app/missing.yaml"))
                  sampleFiles)
  = fst (Rev4.provideViper sampleBundle (sampleStore "/etc/app/missing.yaml")
                           (Flags (sampleCommand "/etc/app/missing.yaml"))
                           sampleFiles).
Proof.
  split; [reflexivity|]. split; [reflexivity|]. split; [reflexivity|].
  exact (proj1 (Rev3_Build_agrees_with_provideViper
                  sampleBundle
                  (contextContainer (sampleStore "/etc/app/missing.yaml"))
                  (sampleStore "/etc/app/missing.yaml") sampleFiles "/app"
                  (sampleCommand "/etc/app/missing.yaml")
                  eq_refl eq_refl eq_refl)).
Defined.

(** X9.  In the second revision, once path, command and flag value are
    found, the build closure always returns the bundle's object, also
    when "read config" fails, and the error it returns is the error of
    "read config" itself, not a wrapper. *)
Theorem Rev2_Build_returns_object_with_error
        (b : Bundle) (ctn : Container) (registry : Registry) (fs : FileSystem)
        (path configFile : string) (cmd : Command) :
  DefRegistry ctn = Some registry ->
  assert_string (Value registry "app.path") = Some path ->
  assert_Command (Value registry "cli.cmd") = Some cmd ->
  pflag.GetString (Flags cmd) "config" = inr configFile ->
  fst (snd (Rev2.Build b ctn fs)) = Some (viper (fst (Rev2.Build b ctn fs))) /\
  snd (snd (Rev2.Build b ctn fs))
  = snd (spf13.ReadInConfig (beforeRead b path configFile) fs) /\
  (forall e, snd (snd (Rev2.Build b ctn fs)) = Some e ->
             viper (fst (Rev2.Build b ctn fs)) = beforeRead b path configFile).
Proof.
  intros Hreg Hpath Hcmd Hflag.
  rewrite (Rev2_Build_with_command b ctn registry fs path cmd Hreg Hpath Hcmd).
  rewrite Hflag. cbn [fst snd viper].
  split; [reflexivity|]. split; [reflexivity|].
  intros e Herr.
  destruct (spf13.ReadInConfig (beforeRead b path configFile) fs)
    as [v' err] eqn:Hread.
  cbn [fst snd] in *. subst err.
  exact (ReadInConfig_failure _ _ _ _ Hread).
Qed.

Lemma Rev2_Build_returns_object_with_error_witness :
  DefRegistry (registryContainer (sampleStore "/etc/app/missing.yaml"))
  = Some (sampleStore "/etc/app/missing.yaml") /\
  assert_string (Value (sampleStore "/etc/app/missing.yaml") "app.path")
  = Some "/app" /\
  assert_Command (Value (sampleStore "/etc/app/missing.yaml") "cli.cmd")
  = Some (sampleCommand "/etc/app/missing.yaml") /\
  pflag.GetString (Flags (sampleCommand "/etc/app/missing.yaml")) "config"
  = inr "/etc/app/missing.yaml" /\
  snd (snd (Rev2.Build sampleBundle
                       (registryContainer (sampleStore "/etc/app/missing.yaml"))
                       sampleFiles))
  = snd (spf13.ReadInConfig
           (beforeRead sampleBundle "/app" "/etc/app/missing.yaml") sampleFiles).
Proof.
  split; [reflexivity|]. split; [reflexivity|]. split; [reflexivity|].
  split; [reflexivity|].
  exact (proj1 (proj2 (Rev2_Build_returns_object_with_error
                         sampleBundle
                         (registryContainer (sampleStore "/etc/app/missing.yaml"))
                         (sampleStore "/etc/app/missing.yaml") sampleFiles
                         "/app" "/etc/app/missing.yaml"
                         (sampleCommand "/etc/app/missing.yaml")
                         eq_refl eq_refl eq_refl eq_refl))).
Defined.

(** ** What the configuration stage reads and writes *)



(** X11.  Whatever the context, the flag set and the file system, the
    configuration stage leaves the automatic-env switch, the environment
    prefix, the key replacer, the config name and the config type of the
    bundle as the options set them; it writes search paths, config file
    and loaded settings only. *)
Theorem provideViper_keeps_option_settings
        (b : Bundle) (ctx : Context) (flagSet : pflag.FlagSet) (fs : FileSystem) :
  spf13.automaticEnvApplied (viper (fst (Rev4.provideViper b ctx flagSet fs)))
  = spf13.automaticEnvApplied (viper b) /\
  spf13.envPrefix (viper (fst (Rev4.provideViper b ctx flagSet fs)))
  = spf13.envPrefix (viper b) /\
  spf13.envKeyReplacer (viper (fst (Rev4.provideViper b ctx flagSet fs)))
  = spf13.envKeyReplacer (viper b) /\
  spf13.configName (viper (fst (Rev4.provideViper b ctx flagSet fs)))
  = spf13.configName (viper b) /\
  spf13.configType (viper (fst (Rev4.provideViper b ctx flagSet fs)))
  = spf13.configType (viper b).
Proof.
  rewrite provideViper_bundle_after.
  destruct (assert_string (Value ctx "app.path")) as [path|];
    [|repeat split].
  destruct (pflag.GetString flagSet "config") as [e|configFile]; cbn [viper];
    [repeat split|].
  destruct (ReadInConfig_keeps_settings (beforeRead b path configFile) fs)
    as (Hauto & Hprefix & Hrepl & _ & Hname & _ & Htype).
  cbv zeta in Hauto, Hprefix, Hrepl, Hname, Htype.
  rewrite Hauto, Hprefix, Hrepl, Hname, Htype. unfold beforeRead.
  destruct (0 <? String.length configFile)%nat; repeat split.
Qed.

(** X12.  The configuration stage looks at the context under "app.path"
    and at the flag set under "config" and at nothing else: two contexts
    that agree on the one key and two flag sets that agree on the one
    flag give the same resolution. *)
Theorem provideViper_reads_two_keys_only
        (b : Bundle) (ctx ctx' : Context) (flagSet flagSet' : pflag.FlagSet)
        (fs : FileSystem) :
  assert_string (Value ctx "app.path") = assert_string (Value ctx' "app.path") ->
  pflag.GetString flagSet "config" = pflag.GetString flagSet' "config" ->
  Rev4.provideViper b ctx flagSet fs = Rev4.provideViper b ctx' flagSet' fs.
Proof.
  intros Hpath Hflag. unfold Rev4.provideViper. now rewrite Hpath, Hflag.
Qed.

Lemma provideViper_reads_two_keys_only_witness :
  assert_string (Value sampleContext "app.path")
  = assert_string (Value (sampleStore "/ignored.yaml") "app.path") /\
  pflag.GetString (flagSetWith "/etc/app/custom.yaml") "config"
  = pflag.GetString
      (pflag.StringP
         (pflag.StringP (pflag.NewFlagSet "app" pflag.ExitOnError)
                        "config" "c" "/etc/app/custom.yaml" "config file")
         "log" "l" "info" "log level")
      "config" /\
  Rev4.provideViper sampleBundle sampleContext
                    (flagSetWith "/etc/app/custom.yaml") sampleFiles
  = Rev4.provideViper sampleBundle (sampleStore "/ignored.yaml")
      (pflag.StringP
         (pflag.StringP (pflag.NewFlagSet "app" pflag.ExitOnError)
                        "config" "c" "/etc/app/custom.yaml" "config file")
         "log" "l" "info" "log level")
      sampleFiles.
Proof.
  split; [reflexivity|]. split; [reflexivity|].
  exact (provideViper_reads_two_keys_only
           sampleBundle sampleContext (sampleStore "/ignored.yaml")
           (flagSetWith "/etc/app/custom.yaml")
           (pflag.StringP
              (pflag.StringP (pflag.NewFlagSet "app" pflag.ExitOnError)
                             "config" "c" "/etc/app/custom.yaml" "config file")
              "log" "l" "info" "log level")
           sampleFiles eq_refl eq_refl).
Defined.

(** ** Construction *)

(** X13.  Bundle construction composes: for any two option sequences,
    building with the first followed by the second is applying the second
    to the bundle built with the first, for [NewBundleWithConfig] and for
    the [NewBundle] that takes options; in particular [NewBundle] is
    [NewBundleWithConfig] on the defaults followed by the caller's
    options. *)
Theorem NewBundle_composes (xs ys : list Option) :
  NewBundleWithConfig (xs ++ ys) = applyAll ys (NewBundleWithConfig xs) /\
  Rev4.NewBundle (xs ++ ys) = applyAll ys (Rev4.NewBundle xs) /\
  Rev3.NewBundle (xs ++ ys) = applyAll ys (Rev3.NewBundle xs) /\
  Rev4.NewBundle xs = applyAll xs Rev1.NewBundle.
Proof.
  unfold Rev4.NewBundle, Rev3.NewBundle, Rev1.NewBundle, NewBundleWithConfig.
  rewrite !app_assoc, !applyAll_app. repeat split.
Qed.

(** X14.  From the first revision to the fourth, for an application that
    passes no config flag: given the same path, from the registry there
    and from the context here, both leave the same bundle behind and
    succeed on the same runs with the same object; on a failed read the
    first revision returns the object and the library's error, the fourth
    no object and that error wrapped with an empty file name. *)
Theorem Rev1_Build_agrees_with_provideViper
        (b : Bundle) (ctn : Container) (registry : Registry) (ctx : Context)
        (flagSet : pflag.FlagSet) (fs : FileSystem) (path : string) :
  DefRegistry ctn = Some registry ->
  assert_string (Value registry "app.path") = Some path ->
  assert_string (Value ctx "app.path") = Some path ->
  pflag.GetString flagSet "config" = inr EmptyString ->
  fst (Rev1.Build b ctn fs) = fst (Rev4.provideViper b ctx flagSet fs) /\
  (snd (snd (Rev4.provideViper b ctx flagSet fs)) = None ->
   snd (Rev1.Build b ctn fs) = snd (Rev4.provideViper b ctx flagSet fs)) /\
  (forall e,
      snd (snd (Rev1.Build b ctn fs)) = Some e ->
      fst (snd (Rev1.Build b ctn fs)) = Some (viper (fst (Rev1.Build b ctn fs))) /\
      snd (Rev4.provideViper b ctx flagSet fs)
      = (None, Some (Errorf "unable to read config file : '' : " e))).
Proof.
  intros Hreg Hrpath Hpath Hflag.
  assert (Hfill : Fill_string registry "app.path" = inr path)
    by (unfold Fill_string; now rewrite Hrpath).
  rewrite (Rev1_Build_read_error b ctn registry fs path Hreg Hfill).
  rewrite (provideViper_reads b ctx flagSet fs path EmptyString Hpath Hflag).
  change (beforeRead b path EmptyString) with (spf13.AddConfigPath (viper b) path).
  unfold readOutcome. cbn [fst snd viper].
  destruct (snd (spf13.ReadInConfig (spf13.AddConfigPath (viper b) path) fs))
    as [e|].
  - split; [reflexivity|]. split; [discriminate|].
    intros e' [= <-]. split; reflexivity.
  - split; [reflexivity|]. split; [reflexivity|]. discriminate.
Qed.

Lemma Rev1_Build_agrees_with_provideViper_witness :
  DefRegistry (registryContainer sampleContext) = Some sampleContext /\
  assert_string (Value sampleContext "app.path") = Some "/app" /\
  pflag.GetString (flagSetWith EmptyString) "config" = inr EmptyString /\
  fst (Rev1.Build Rev1.NewBundle (registryContainer sampleContext) sampleFiles)
  = fst (Rev4.provideViper Rev1.NewBundle sampleContext
                           (flagSetWith EmptyString) sampleFiles).
Proof.
  split; [reflexivity|]. split; [reflexivity|]. split; [reflexivity|].
  exact (proj1 (Rev1_Build_agrees_with_provideViper
                  Rev1.NewBundle (registryContainer sampleContext)
                  sampleContext sampleContext (flagSetWith EmptyString)
                  sampleFiles "/app" eq_refl eq_refl eq_refl eq_refl)).
Defined.
